(** * osmi-addresses: the batched transactional feature writer

    A shallow embedding of [src/osmi/Writer.hpp] (class [Writer]) and the
    properties of its transaction batching, directory bootstrap, error
    policy and teardown order.

    The class talks to three outside parties: the OGR library (driver,
    data source, layer, features), the C library ([getcwd], [mkdir],
    [errno], [exit]) and the diagnostic stream [std::cerr].  Every such
    call is recorded as an [Event] in the process log; what the outside
    answers is given by a [World], a family of functions of the history of
    calls so far, so that theorems hold for every deterministic
    environment.  [exit(1)] is the [Exited] outcome of the monad [M]: no
    later statement runs. *)

From Stdlib Require Import ZArith String List Bool Lia Ascii DecimalString DecimalZ.
Import ListNotations.

Local Open Scope Z_scope.
Local Open Scope string_scope.

(** ** Constants of the source and of the headers it includes *)

(** [#define NO_WIDTH -1] *)
Definition NO_WIDTH : Z := -1.

(** [#define USE_TRANSACTIONS true], [#define DONT_USE_TRANSACTIONS false] *)
Definition USE_TRANSACTIONS : bool := true.
Definition DONT_USE_TRANSACTIONS : bool := false.

(** [OGRErr] is an [int]; [OGRERR_NONE] is 0 in [ogr_core.h]. *)
Definition OGRErr := Z.
Definition OGRERR_NONE : OGRErr := 0.

(** Permission bits of [<sys/stat.h>] (POSIX values). *)
Definition S_IRWXU : Z := 448.
Definition S_IRGRP : Z := 32.
Definition S_IXGRP : Z := 8.
Definition S_IROTH : Z := 4.
Definition S_IXOTH : Z := 1.

(** The batch threshold written in [maybe_commit_transaction]. *)
Definition BATCH_LIMIT : Z := 10000.

(** [unsigned int] arithmetic: values live in [0, 2^32) and wrap. *)
Definition UINT_MODULUS : Z := 2 ^ 32.
Definition wrap_uint (z : Z) : Z := z mod UINT_MODULUS.

(** ** Data of the OGR interface *)

Inductive OGRwkbGeometryType :=
| wkbUnknown | wkbPoint | wkbLineString | wkbPolygon
| wkbMultiPoint | wkbMultiLineString | wkbMultiPolygon.

Inductive OGRFieldType :=
| OFTInteger | OFTIntegerList | OFTReal | OFTRealList
| OFTString | OFTStringList | OFTBinary | OFTDate | OFTTime | OFTDateTime.

(** Non-null pointers handed out by the library; a nullable pointer is an
    [option] of these. *)
Definition OGRSFDriver := Z.
Definition OGRDataSource := Z.
Definition OGRLayer := Z.

(** [struct field_config { std::string name; OGRFieldType type; int width; }] *)
Record field_config := {
  name : string;
  type : OGRFieldType;
  width : Z
}.

(** An [OGRFieldDefn] as [create_fields] builds it: the constructor takes
    the name and the type, [SetWidth] is called only for a width other
    than [NO_WIDTH]. *)
Record OGRFieldDefn := {
  fd_name : string;
  fd_type : OGRFieldType;
  fd_width : option Z
}.

(** A feature is opaque to the writer: it is handed to the layer and then
    destroyed. *)
Record OGRFeature := {
  geometry : string;
  attributes : list (string * string)
}.

(** ** Events and the outside world *)

Inductive Event :=
| EGetDriverByName (driver_name : string)
| ESetConfigOption (key value : string)
| EGetcwd
| EMkdir (dir : string) (mode : Z)
| ECreateDataSource (driver : OGRSFDriver) (path : string) (options : list string)
| ECreateLayer (ds : OGRDataSource) (layer_name srs : string)
    (geom_type : OGRwkbGeometryType) (options : list string)
| ECreateField (layer : OGRLayer) (defn : OGRFieldDefn)
| EStartTransaction (layer : OGRLayer)
| ECommitTransaction (layer : OGRLayer)
| ECreateFeature (layer : OGRLayer) (feature : OGRFeature)
| EDestroyFeature (feature : OGRFeature)
| EDestroyDataSource (ds : OGRDataSource)
| EStderr (msg : string).

(** The calls made so far, most recent first. *)
Definition History := list Event.

(** What the environment answers to each call whose result the writer
    inspects, given the history before the call. *)
Record World := {
  w_GetDriverByName : History -> string -> option OGRSFDriver;
  w_getcwd : History -> option string;
  w_errno : History -> Z;
  w_mkdir : History -> string -> Z -> Z;
  w_CreateDataSource :
    History -> OGRSFDriver -> string -> list string -> option OGRDataSource;
  w_CreateLayer :
    History -> OGRDataSource -> string -> OGRwkbGeometryType -> list string ->
    option OGRLayer;
  w_CreateField : History -> OGRLayer -> OGRFieldDefn -> OGRErr;
  w_CreateFeature : History -> OGRLayer -> OGRFeature -> OGRErr
}.

(** ** Process state and the monad of writer code *)

(** [is_output_dir_written] is the static member of [Writer], shared by
    all instances; [log] is the history of outside calls. *)
Record Proc := {
  is_output_dir_written : bool;
  log : History
}.

(** [bool Writer::is_output_dir_written = false;] and nothing has happened. *)
Definition initial_proc : Proc :=
  {| is_output_dir_written := false; log := [] |}.

Inductive Outcome (A : Type) :=
| Returned (a : A) (p : Proc)
| Exited (code : Z) (p : Proc).
Arguments Returned {A} a p.
Arguments Exited {A} code p.

Definition M (A : Type) := Proc -> Outcome A.

Definition ret {A} (a : A) : M A := fun p => Returned a p.

Definition bind {A B} (m : M A) (k : A -> M B) : M B :=
  fun p =>
    match m p with
    | Returned a p' => k a p'
    | Exited c p' => Exited c p'
    end.

Notation "x <- c1 ;; c2" := (bind c1 (fun x => c2))
  (at level 61, c1 at next level, right associativity).
Notation "c1 ;; c2" := (bind c1 (fun _ => c2))
  (at level 61, right associativity).

(** [exit(code)]: the process ends here. *)
Definition exit {A} (code : Z) : M A := fun p => Exited code p.

Definition emit (e : Event) : M unit :=
  fun p =>
    Returned tt {| is_output_dir_written := is_output_dir_written p;
                   log := e :: log p |}.

(** An outside call whose answer depends on the history before it. *)
Definition call {A} (e : Event) (answer : History -> A) : M A :=
  fun p =>
    Returned (answer (log p))
      {| is_output_dir_written := is_output_dir_written p;
         log := e :: log p |}.

Definition read_errno (W : World) : M Z :=
  fun p => Returned (w_errno W (log p)) p.

Definition get_flag : M bool :=
  fun p => Returned (is_output_dir_written p) p.

Definition set_flag (b : bool) : M unit :=
  fun p => Returned tt {| is_output_dir_written := b; log := log p |}.

(** The process state an outcome ends in, and the events in order. *)
Definition proc_of {A} (o : Outcome A) : Proc :=
  match o with
  | Returned _ p => p
  | Exited _ p => p
  end.

Definition trace (p : Proc) : list Event := rev_append (log p) [].

(** The events performed between process state [p] and a later state
    [p'], in the order they happened ([rev_append l []] is [rev l], in
    linear time). *)
Definition events_since (p p' : Proc) : list Event :=
  rev_append (firstn (length (log p') - length (log p)) (log p')) [].

(** ** Text written to [std::cerr] *)

Definition endl : string := String (ascii_of_nat 10) "".

(** [operator<<] on an integer prints it in decimal. *)
Definition show_int (z : Z) : string := NilZero.string_of_int (Z.to_int z).

Definition cerr (msg : string) : M unit := emit (EStderr msg).

(** ** The class [Writer] *)

(** The members of a constructed [Writer].  [m_layer] and [m_data_source]
    are non-null in every constructed object: the constructor leaves
    through [exit(1)] when either creation returns a null pointer.
    [m_layer_name] is declared but no constructor initialiser sets it, so
    it holds the empty string. *)
Record Writer := {
  m_layer_name : string;
  m_use_transaction : bool;
  m_layer : OGRLayer;
  m_data_source : OGRDataSource;
  num_features : Z
}.

Definition set_num_features (w : Writer) (n : Z) : Writer :=
  {| m_layer_name := m_layer_name w;
     m_use_transaction := m_use_transaction w;
     m_layer := m_layer w;
     m_data_source := m_data_source w;
     num_features := n |}.

Section WriterCode.

Variable W : World.

(** [std::string get_current_dir()] *)
Definition get_current_dir : M string :=
  current_path <- call EGetcwd (w_getcwd W) ;;
  match current_path with
  | None =>
      errno <- read_errno W ;;
      cerr ("ERROR: Could not get current directory. errno="
            ++ show_int errno ++ endl) ;;
      exit 1
  | Some current_path_string => ret current_path_string
  end.

(** [void create_dir(const std::string& dir)] *)
Definition create_dir (dir : string) : M unit :=
  let mode :=
    Z.lor S_IRWXU (Z.lor S_IRGRP (Z.lor S_IXGRP (Z.lor S_IROTH S_IXOTH))) in
  r <- call (EMkdir dir mode) (fun h => w_mkdir W h dir mode) ;;
  if (r =? 0)%Z then ret tt
  else
    errno <- read_errno W ;;
    cerr ("Could not create directory " ++ dir ++ ". errno="
          ++ show_int errno ++ endl) ;;
    exit 1.

(** [void maybe_create_dir(const std::string& dir)] *)
Definition maybe_create_dir (dir : string) : M unit :=
  written <- get_flag ;;
  if negb written then
    set_flag true ;;
    create_dir dir
  else ret tt.

(** [OGRDataSource* get_data_source(dir_name, layer_name)]; the result is
    the possibly null pointer returned by [CreateDataSource]. *)
Definition get_data_source (dir_name layer_name : string)
  : M (option OGRDataSource) :=
  let driver_name := "SQLite" in
  driver <- call (EGetDriverByName driver_name)
              (fun h => w_GetDriverByName W h driver_name) ;;
  match driver with
  | None =>
      cerr (driver_name ++ " driver not available." ++ endl) ;;
      exit 1
  | Some driver =>
      emit (ESetConfigOption "OGR_SQLITE_SYNCHRONOUS" "OFF") ;;
      emit (ESetConfigOption "OGR_SQLITE_SYNCHRONOUS" "FALSE") ;;
      emit (ESetConfigOption "OGR_SQLITE_CACHE" "1024") ;;
      let options := ["SPATIALITE=TRUE"] in
      cwd <- get_current_dir ;;
      let full_dir := cwd ++ "/" ++ dir_name in
      maybe_create_dir full_dir ;;
      let path := full_dir ++ "/" ++ layer_name ++ ".sqlite" in
      call (ECreateDataSource driver path options)
        (fun h => w_CreateDataSource W h driver path options)
  end.

(** [void create_layer(data_source, layer_name, geom_type)]; returns the
    layer stored in [m_layer]. *)
Definition create_layer (data_source : OGRDataSource) (layer_name : string)
    (geom_type : OGRwkbGeometryType) : M OGRLayer :=
  let layer_options := ["SPATIAL_INDEX=no"; "COMPRESS_GEOM=yes"] in
  layer <- call (ECreateLayer data_source layer_name "WGS84" geom_type
                   layer_options)
             (fun h => w_CreateLayer W h data_source layer_name geom_type
                         layer_options) ;;
  match layer with
  | None =>
      cerr ("Creation of layer '" ++ layer_name ++ "' failed." ++ endl) ;;
      exit 1
  | Some layer => ret layer
  end.

(** [Writer(dirname, layer_name, use_transaction, geom_type)].  The local
    [spatialref] of the constructor is never passed on and has no outside
    effect. *)
Definition Writer_new (dirname layer_name : string) (use_transaction : bool)
    (geom_type : OGRwkbGeometryType) : M Writer :=
  data_source <- get_data_source dirname layer_name ;;
  match data_source with
  | None =>
      cerr ("Creation of data source for layer '" ++ layer_name
            ++ "' failed." ++ endl) ;;
      exit 1
  | Some data_source =>
      layer <- create_layer data_source layer_name geom_type ;;
      ret {| m_layer_name := "";
             m_use_transaction := use_transaction;
             m_layer := layer;
             m_data_source := data_source;
             num_features := 0 |}
  end.

(** [virtual ~Writer()] *)
Definition Writer_delete (w : Writer) : M unit :=
  (if m_use_transaction w
   then emit (ECommitTransaction (m_layer w))
   else ret tt) ;;
  emit (EDestroyDataSource (m_data_source w)).

(** The [OGRFieldDefn] built in the body of the loop of [create_fields]. *)
Definition field_defn_of (c : field_config) : OGRFieldDefn :=
  {| fd_name := name c;
     fd_type := type c;
     fd_width := if (width c =? NO_WIDTH)%Z then None else Some (width c) |}.

(** The [for] loop of [create_fields]. *)
Fixpoint create_fields_loop (w : Writer) (cfgs : list field_config) : M unit :=
  match cfgs with
  | [] => ret tt
  | it :: rest =>
      let field_defn := field_defn_of it in
      e <- call (ECreateField (m_layer w) field_defn)
             (fun h => w_CreateField W h (m_layer w) field_defn) ;;
      if (e =? OGRERR_NONE)%Z then create_fields_loop w rest
      else
        cerr ("Creating field '" ++ name it ++ "' for layer '"
              ++ m_layer_name w ++ "' failed." ++ endl) ;;
        exit 1
  end.

(** [void create_fields(const std::vector<field_config>&)] *)
Definition create_fields (w : Writer) (field_configurations : list field_config)
  : M unit :=
  create_fields_loop w field_configurations ;;
  if m_use_transaction w
  then emit (EStartTransaction (m_layer w))
  else ret tt.

(** [void maybe_commit_transaction()]; returns the writer with its updated
    counter. *)
Definition maybe_commit_transaction (w : Writer) : M Writer :=
  let w1 := set_num_features w (wrap_uint (num_features w + 1)) in
  if m_use_transaction w1 && (BATCH_LIMIT <? num_features w1)%Z then
    emit (ECommitTransaction (m_layer w1)) ;;
    emit (EStartTransaction (m_layer w1)) ;;
    ret (set_num_features w1 0)
  else ret w1.

(** [void create_feature(OGRFeature* feature)] *)
Definition create_feature (w : Writer) (feature : OGRFeature) : M Writer :=
  e <- call (ECreateFeature (m_layer w) feature)
         (fun h => w_CreateFeature W h (m_layer w) feature) ;;
  if (e =? OGRERR_NONE)%Z then
    emit (EDestroyFeature feature) ;;
    maybe_commit_transaction w
  else
    cerr ("Failed to create feature. e = " ++ show_int e ++ endl) ;;
    exit 1.

(** [void catch_geometry_error(const osmium::geometry_error& e,
    const osmium::Way& way)]; [what] is [e.what()] and [way_id] is
    [way.id()]. *)
Definition catch_geometry_error (w : Writer) (what : string) (way_id : Z)
  : M unit :=
  cerr ("Ignoring illegal geometry for way with id = " ++ show_int way_id
        ++ " e.what() = " ++ what ++ endl).

(** ** Runs of calls on one writer *)

(** A subclass calls [create_feature] once per record it turns into a
    feature. *)
Fixpoint create_features (w : Writer) (fs : list OGRFeature) : M Writer :=
  match fs with
  | [] => ret w
  | f :: rest =>
      w' <- create_feature w f ;;
      create_features w' rest
  end.

(** Modelled from the spec: the outcome of geometry construction for one
    path record inside the [feed_way] override of a concrete writer (the
    spec's accept-path operation); the overrides are not part of
    [Writer.hpp], where [feed_way] is pure virtual.  Either the geometry
    was built and the record has become a feature, or construction failed
    with a geometry error carrying a cause and the record's id. *)
Inductive WayResult :=
| WayFeature (feature : OGRFeature)
| WayGeometryError (what : string) (way_id : Z).

(** Modelled from the spec: the accept-path operation, i.e. the [feed_way]
    override with its [try]/[catch], which is missing from the source
    given.  In the spec's words: if geometry construction fails with a
    geometry error the writer catches it, emits a diagnostic and continues,
    no feature being written for that record; otherwise the feature is
    committed to the layer and the transaction bookkeeping runs.  The two
    branches call the members of [Writer.hpp], [catch_geometry_error] and
    [create_feature]. *)
Definition handle_way (w : Writer) (r : WayResult) : M Writer :=
  match r with
  | WayFeature f => create_feature w f
  | WayGeometryError what way_id =>
      catch_geometry_error w what way_id ;;
      ret w
  end.

(** Modelled from the spec: the feeder handing path records to the
    accept-path operation one after the other; the feeder is not part of
    [Writer.hpp]. *)
Fixpoint handle_ways (w : Writer) (rs : list WayResult) : M Writer :=
  match rs with
  | [] => ret w
  | r :: rest =>
      w' <- handle_way w r ;;
      handle_ways w' rest
  end.

End WriterCode.

(** ** Programs over several writers *)

(** The writers a process holds, by index; a destroyed writer leaves
    [None] behind. *)
Definition Heap := list (option Writer).

Fixpoint set_nth (h : Heap) (i : nat) (v : option Writer) : Heap :=
  match h, i with
  | [], _ => []
  | _ :: t, O => v :: t
  | x :: t, S j => x :: set_nth t j v
  end.

(** What a process does with its writers: construct one, or invoke a
    member of a live one.  A call on an index that holds no live writer
    is not a call the program can make and is skipped. *)
Inductive Call :=
| CNew (dirname layer_name : string) (use_transaction : bool)
    (geom_type : OGRwkbGeometryType)
| CCreateFields (i : nat) (cfgs : list field_config)
| CCreateFeature (i : nat) (feature : OGRFeature)
| CCatchGeometryError (i : nat) (what : string) (way_id : Z)
| CDelete (i : nat).

Definition live (h : Heap) (i : nat) : option Writer :=
  match nth_error h i with
  | Some (Some w) => Some w
  | _ => None
  end.

Definition run_call (W : World) (h : Heap) (c : Call) : M Heap :=
  match c with
  | CNew d l tx g =>
      w <- Writer_new W d l tx g ;;
      ret (h ++ [Some w])%list
  | CCreateFields i cfgs =>
      match live h i with
      | Some w => create_fields W w cfgs ;; ret h
      | None => ret h
      end
  | CCreateFeature i f =>
      match live h i with
      | Some w => w' <- create_feature W w f ;; ret (set_nth h i (Some w'))
      | None => ret h
      end
  | CCatchGeometryError i what way_id =>
      match live h i with
      | Some w => catch_geometry_error w what way_id ;; ret h
      | None => ret h
      end
  | CDelete i =>
      match live h i with
      | Some w => Writer_delete w ;; ret (set_nth h i None)
      | None => ret h
      end
  end.

Fixpoint run_calls (W : World) (h : Heap) (cs : list Call) : M Heap :=
  match cs with
  | [] => ret h
  | c :: rest =>
      h' <- run_call W h c ;;
      run_calls W h' rest
  end.

(** ** Reading a trace *)

Definition is_commit (e : Event) : bool :=
  match e with ECommitTransaction _ => true | _ => false end.

Definition is_start (e : Event) : bool :=
  match e with EStartTransaction _ => true | _ => false end.

Definition is_tx_op (e : Event) : bool := is_commit e || is_start e.

Definition is_mkdir (e : Event) : bool :=
  match e with EMkdir _ _ => true | _ => false end.

Definition is_create_feature (e : Event) : bool :=
  match e with ECreateFeature _ _ => true | _ => false end.

Definition is_create_data_source (e : Event) : bool :=
  match e with ECreateDataSource _ _ _ => true | _ => false end.

Definition is_stderr (e : Event) : bool :=
  match e with EStderr _ => true | _ => false end.

Definition count (f : Event -> bool) (tr : list Event) : Z :=
  Z.of_nat (length (filter f tr)).

(** Every [CommitTransaction] in the trace is directly followed by a
    [StartTransaction] on the same layer. *)
Fixpoint commits_restart (tr : list Event) : bool :=
  match tr with
  | [] => true
  | ECommitTransaction l :: rest =>
      match rest with
      | EStartTransaction l' :: _ => (l =? l')%Z && commits_restart rest
      | _ => false
      end
  | _ :: rest => commits_restart rest
  end.

(** The transaction window while reading a trace from left to right:
    [None] when no transaction is open, [Some n] when one is open and [n]
    features have been created in it. *)
Definition tx_step (st : option Z) (e : Event) : option Z :=
  match e with
  | EStartTransaction _ => Some 0
  | ECommitTransaction _ => None
  | ECreateFeature _ _ => option_map Z.succ st
  | _ => st
  end.

Definition tx_state (st : option Z) (tr : list Event) : option Z :=
  fold_left tx_step tr st.

Definition within (bound : Z) (st : option Z) : bool :=
  match st with
  | Some n => (n <=? bound)%Z
  | None => true
  end.

(** At no point of the trace does an open transaction hold more than
    [bound] created features. *)
Fixpoint windows_bounded (bound : Z) (st : option Z) (tr : list Event) : bool :=
  match tr with
  | [] => true
  | e :: rest =>
      within bound (tx_step st e) && windows_bounded bound (tx_step st e) rest
  end.

(** [push tr p] is [p] after the events [tr] (in order) have happened. *)
Definition push (tr : list Event) (p : Proc) : Proc :=
  {| is_output_dir_written := is_output_dir_written p;
     log := (rev tr ++ log p)%list |}.

Definition mark_dir_written (p : Proc) : Proc :=
  {| is_output_dir_written := true; log := log p |}.

(** The [mode] argument of [mkdir] in [create_dir]. *)
Definition DIR_MODE : Z :=
  Z.lor S_IRWXU (Z.lor S_IRGRP (Z.lor S_IXGRP (Z.lor S_IROTH S_IXOTH))).

(** The diagnostics, as the source composes them. *)
Definition msg_driver : string := "SQLite" ++ " driver not available." ++ endl.
Definition msg_cwd (errno : Z) : string :=
  "ERROR: Could not get current directory. errno=" ++ show_int errno ++ endl.
Definition msg_mkdir (dir : string) (errno : Z) : string :=
  "Could not create directory " ++ dir ++ ". errno=" ++ show_int errno ++ endl.
Definition msg_data_source (layer_name : string) : string :=
  "Creation of data source for layer '" ++ layer_name ++ "' failed." ++ endl.
Definition msg_layer (layer_name : string) : string :=
  "Creation of layer '" ++ layer_name ++ "' failed." ++ endl.
Definition msg_field (w : Writer) (c : field_config) : string :=
  "Creating field '" ++ name c ++ "' for layer '" ++ m_layer_name w
  ++ "' failed." ++ endl.
Definition msg_feature (e : OGRErr) : string :=
  "Failed to create feature. e = " ++ show_int e ++ endl.
Definition msg_geometry (what : string) (way_id : Z) : string :=
  "Ignoring illegal geometry for way with id = " ++ show_int way_id
  ++ " e.what() = " ++ what ++ endl.

(** The events of the constructor before [getcwd], and up to and
    including it. *)
Definition ctor_config : list Event :=
  [ EGetDriverByName "SQLite";
    ESetConfigOption "OGR_SQLITE_SYNCHRONOUS" "OFF";
    ESetConfigOption "OGR_SQLITE_SYNCHRONOUS" "FALSE";
    ESetConfigOption "OGR_SQLITE_CACHE" "1024" ].

Definition ctor_prefix : list Event := (ctor_config ++ [EGetcwd])%list.

(** The options passed to [CreateDataSource] and to [CreateLayer]. *)
Definition DS_OPTIONS : list string := ["SPATIALITE=TRUE"].
Definition LAYER_OPTIONS : list string := ["SPATIAL_INDEX=no"; "COMPRESS_GEOM=yes"].

(** The path of the store file as [get_data_source] composes it. *)
Definition full_dir_of (cwd dir_name : string) : string :=
  cwd ++ "/" ++ dir_name.
Definition store_path (cwd dir_name layer_name : string) : string :=
  full_dir_of cwd dir_name ++ "/" ++ layer_name ++ ".sqlite".

(** The events of a constructor that returns, given whether the
    directory flag was already set and what the library handed out. *)
Definition ctor_events (written : bool) (driver : OGRSFDriver) (cwd : string)
    (dirname layer_name : string) (ds : OGRDataSource)
    (geom_type : OGRwkbGeometryType) : list Event :=
  (ctor_prefix
   ++ (if written then [] else [EMkdir (full_dir_of cwd dirname) DIR_MODE])
   ++ [ECreateDataSource driver (store_path cwd dirname layer_name) DS_OPTIONS;
       ECreateLayer ds layer_name "WGS84" geom_type LAYER_OPTIONS])%list.

(** [m] performs only events that satisfy [P], whatever its outcome. *)
Definition emits {A} (P : Event -> bool) (m : M A) : Prop :=
  forall p, exists tr,
    log (proc_of (m p)) = (rev tr ++ log p)%list /\ forallb P tr = true.

(** When [m] ends the process, it does so with status 1 and the last
    thing that happened is a diagnostic on [std::cerr]. *)
Definition exits_with_diagnostic {A} (m : M A) : Prop :=
  forall p c p', m p = Exited c p' ->
    c = 1 /\ exists msg h, log p' = EStderr msg :: h.

(** The directory flag accounts for every [mkdir] performed so far. *)
Definition mkdir_accounted (p : Proc) : Prop :=
  count is_mkdir (log p) <= (if is_output_dir_written p then 1 else 0).

Definition keeps_mkdir_accounted {A} (m : M A) : Prop :=
  forall p, mkdir_accounted p -> mkdir_accounted (proc_of (m p)).

Definition field_event (w : Writer) (c : field_config) : Event :=
  ECreateField (m_layer w) (field_defn_of c).

(** ** Concrete environments *)

(** Everything succeeds; the working directory is [/home/osm]. *)
Definition ok_world : World :=
  {| w_GetDriverByName := fun _ _ => Some 1;
     w_getcwd := fun _ => Some "/home/osm";
     w_errno := fun _ => 0;
     w_mkdir := fun _ _ _ => 0;
     w_CreateDataSource := fun _ _ _ _ => Some 2;
     w_CreateLayer := fun _ _ _ _ _ => Some 3;
     w_CreateField := fun _ _ _ => 0;
     w_CreateFeature := fun _ _ _ => 0 |}.


Definition demo_writer (use_transaction : bool) : Writer :=
  {| m_layer_name := "";
     m_use_transaction := use_transaction;
     m_layer := 3;
     m_data_source := 2;
     num_features := 0 |}.

Definition demo_feature : OGRFeature :=
  {| geometry := "POLYGON((0 0,0 1,1 1,0 0))";
     attributes := [("name", "town hall")] |}.

Definition demo_schema : list field_config :=
  [ {| name := "name"; type := OFTString; width := 64 |} ].

(** The whole life of one writer: construction, schema, features,
    destruction. *)
Definition lifecycle (W : World) (dirname layer_name : string)
    (use_transaction : bool) (geom_type : OGRwkbGeometryType)
    (cfgs : list field_config) (fs : list OGRFeature) : M unit :=
  w <- Writer_new W dirname layer_name use_transaction geom_type ;;
  create_fields W w cfgs ;;
  w' <- create_features W w fs ;;
  Writer_delete w'.

(** The process state at the successive calls of the constructor. *)
Definition at_getcwd (p : Proc) : Proc := push ctor_config p.

Definition after_getcwd (p : Proc) : Proc := push [EGetcwd] (at_getcwd p).

Definition at_create_data_source (p : Proc) (cwd d : string) : Proc :=
  if is_output_dir_written p then after_getcwd p
  else push [EMkdir (full_dir_of cwd d) DIR_MODE]
         (mark_dir_written (after_getcwd p)).

Definition at_create_layer (p : Proc) (drv : OGRSFDriver) (cwd d l : string)
  : Proc :=
  push [ECreateDataSource drv (store_path cwd d l) DS_OPTIONS]
    (at_create_data_source p cwd d).

(** The directory step of the constructor went through: the flag was
    set, or [mkdir] returned 0. *)
Definition dir_step_ok (W : World) (p : Proc) (cwd d : string) : Prop :=
  is_output_dir_written p = false ->
  w_mkdir W (log (after_getcwd p)) (full_dir_of cwd d) DIR_MODE = 0.

(** An event of construction or schema set-up: neither a transaction
    operation nor a feature creation. *)
Definition setup_event (e : Event) : bool :=
  negb (is_tx_op e) && negb (is_create_feature e).

Definition no_tx_op (e : Event) : bool := negb (is_tx_op e).

(** As [ok_world], except that the call of the given stage always fails:
    0 the driver lookup, 1 [getcwd], 2 [mkdir], 3 [CreateDataSource],
    4 [CreateLayer], 5 [CreateField], 6 [CreateFeature]. *)
Definition stage_world (stage : nat) : World :=
  {| w_GetDriverByName := fun _ _ => if Nat.eqb stage 0 then None else Some 1;
     w_getcwd := fun _ => if Nat.eqb stage 1 then None else Some "/home/osm";
     w_errno := fun _ => 13;
     w_mkdir := fun _ _ _ => if Nat.eqb stage 2 then -1 else 0;
     w_CreateDataSource := fun _ _ _ _ => if Nat.eqb stage 3 then None else Some 2;
     w_CreateLayer := fun _ _ _ _ _ => if Nat.eqb stage 4 then None else Some 3;
     w_CreateField := fun _ _ _ => if Nat.eqb stage 5 then 6 else 0;
     w_CreateFeature := fun _ _ _ => if Nat.eqb stage 6 then 6 else 0 |}.

(** ** Further readings of a trace *)

(** The features handed to [CreateFeature], with the layer they went to,
    and the features handed to [DestroyFeature], in order. *)
Definition created_features (tr : list Event) : list (OGRLayer * OGRFeature) :=
  flat_map (fun e => match e with
                     | ECreateFeature l f => [(l, f)]
                     | _ => []
                     end) tr.

Definition destroyed_features (tr : list Event) : list OGRFeature :=
  flat_map (fun e => match e with
                     | EDestroyFeature f => [f]
                     | _ => []
                     end) tr.

(** Reading the transaction operations of a trace from left to right,
    [open] telling whether a transaction is open: a start needs none open,
    a commit needs one open.  The result is the state at the end, or
    [None] when an operation came out of turn. *)
Fixpoint tx_alternates (open : bool) (tr : list Event) : option bool :=
  match tr with
  | [] => Some open
  | EStartTransaction _ :: rest =>
      if open then None else tx_alternates true rest
  | ECommitTransaction _ :: rest =>
      if open then tx_alternates false rest else None
  | _ :: rest => tx_alternates open rest
  end.

(** 1 for an outcome that ended the process, 0 for one that returned. *)
Definition exit_count {A} (o : Outcome A) : Z :=
  match o with
  | Returned _ _ => 0
  | Exited _ _ => 1
  end.

(** [m] writes one diagnostic to [std::cerr] when it ends the process and
    none when it returns. *)
Definition diag_iff_exit {A} (m : M A) : Prop :=
  forall p, exists tr,
    log (proc_of (m p)) = (rev tr ++ log p)%list /\
    count is_stderr tr = exit_count (m p).

(** [m] never clears the directory flag. *)
Definition flag_stays_set {A} (m : M A) : Prop :=
  forall p, is_output_dir_written p = true ->
            is_output_dir_written (proc_of (m p)) = true.



(** The value a configuration option holds after a trace: the one set
    last. *)
Fixpoint config_option (key : string) (tr : list Event) : option string :=
  match tr with
  | [] => None
  | e :: rest =>
      match config_option key rest with
      | Some v => Some v
      | None =>
          match e with
          | ESetConfigOption k v => if String.eqb k key then Some v else None
          | _ => None
          end
      end
  end.

(** Every [CommitTransaction] of the trace comes when the open
    transaction holds exactly [n] created features, [st] being the window
    before the trace. *)
Fixpoint commits_hold (n : Z) (st : option Z) (tr : list Event) : bool :=
  match tr with
  | [] => true
  | e :: rest =>
      match e with
      | ECommitTransaction _ =>
          match st with
          | Some k => (k =? n)%Z
          | None => false
          end
      | _ => true
      end && commits_hold n (tx_step st e) rest
  end.

(** ** Reading a geometry diagnostic back *)

(** The decimal reading of a string, inverse of [show_int]. *)
Definition read_int (s : string) : option Z :=
  option_map Z.of_int (NilZero.int_of_string s).

(** The part of a string before its first space, and the part from that
    space on. *)
Fixpoint until_space (s : string) : string :=
  match s with
  | EmptyString => EmptyString
  | String c rest =>
      if Ascii.eqb c " " then EmptyString else String c (until_space rest)
  end.

Fixpoint from_space (s : string) : string :=
  match s with
  | EmptyString => EmptyString
  | String c rest => if Ascii.eqb c " " then s else from_space rest
  end.

Fixpoint has_no_space (s : string) : bool :=
  match s with
  | EmptyString => true
  | String c rest => negb (Ascii.eqb c " ") && has_no_space rest
  end.

(** [s] without the prefix [pre], when it starts with it. *)
Fixpoint drop_prefix (pre s : string) : option string :=
  match pre with
  | EmptyString => Some s
  | String a pre' =>
      match s with
      | EmptyString => None
      | String b s' => if Ascii.eqb a b then drop_prefix pre' s' else None
      end
  end.

(** [s] without its last character. *)
Fixpoint remove_last (s : string) : string :=
  match s with
  | EmptyString => EmptyString
  | String c rest =>
      match rest with
      | EmptyString => EmptyString
      | String _ _ => String c (remove_last rest)
      end
  end.

(** The way id and the cause a reader finds in a line of the form written
    by [catch_geometry_error]: the id is the decimal number after the
    fixed opening, the cause is what follows [e.what() =] up to the end of
    the line. *)
Definition diagnostic_way_id (msg : string) : option Z :=
  match drop_prefix "Ignoring illegal geometry for way with id = " msg with
  | Some rest => read_int (until_space rest)
  | None => None
  end.

Definition diagnostic_cause (msg : string) : option string :=
  match drop_prefix "Ignoring illegal geometry for way with id = " msg with
  | Some rest =>
      match drop_prefix " e.what() = " (from_space rest) with
      | Some cause => Some (remove_last cause)
      | None => None
      end
  | None => None
  end.

(** * Properties *)

(** ** Traces and process states *)

Lemma events_since_push (tr : list Event) (p : Proc) :
  events_since p (push tr p) = tr.
Proof.
  unfold events_since, push; simpl. rewrite <- rev_alt.
  rewrite length_app, Nat.add_sub.
  rewrite <- (Nat.add_0_r (length (rev tr))), firstn_app_2.
  simpl. rewrite app_nil_r. apply rev_involutive.
Qed.

Lemma events_since_refl (p : Proc) : events_since p p = [].
Proof. unfold events_since. rewrite Nat.sub_diag. reflexivity. Qed.

Lemma push_nil (p : Proc) : push [] p = p.
Proof. destruct p; reflexivity. Qed.

Lemma push_push (a b : list Event) (p : Proc) :
  push b (push a p) = push (a ++ b) p.
Proof.
  unfold push; simpl. rewrite rev_app_distr, app_assoc. reflexivity.
Qed.

Lemma events_since_mark (tr : list Event) (p : Proc) :
  events_since p (push tr (mark_dir_written p)) = tr.
Proof. exact (events_since_push tr (mark_dir_written p)). Qed.

Lemma count_app (f : Event -> bool) (a b : list Event) :
  count f (a ++ b) = count f a + count f b.
Proof.
  unfold count. rewrite filter_app, length_app. lia.
Qed.

Lemma count_nonneg (f : Event -> bool) (tr : list Event) : 0 <= count f tr.
Proof. unfold count. lia. Qed.

Lemma windows_bounded_app (b : Z) (st : option Z) (t1 t2 : list Event) :
  windows_bounded b st (t1 ++ t2) =
  windows_bounded b st t1 && windows_bounded b (tx_state st t1) t2.
Proof.
  revert st. induction t1 as [|e t1 IH]; intros st; simpl.
  - reflexivity.
  - rewrite IH, andb_assoc. reflexivity.
Qed.

Lemma tx_state_app (st : option Z) (t1 t2 : list Event) :
  tx_state st (t1 ++ t2) = tx_state (tx_state st t1) t2.
Proof. apply fold_left_app. Qed.

(** ** The monad *)

Lemma bind_returned {A B} (m : M A) (k : A -> M B) (p p' : Proc) (a : A) :
  m p = Returned a p' -> bind m k p = k a p'.
Proof. unfold bind. intros ->. reflexivity. Qed.

Lemma bind_exited {A B} (m : M A) (k : A -> M B) (p p' : Proc) (c : Z) :
  m p = Exited c p' -> bind m k p = Exited c p'.
Proof. unfold bind. intros ->. reflexivity. Qed.

Lemma bind_emit {B} (e : Event) (k : unit -> M B) (p : Proc) :
  bind (emit e) k p = k tt (push [e] p).
Proof. reflexivity. Qed.

Lemma bind_call {A B} (e : Event) (answer : History -> A) (k : A -> M B)
    (p : Proc) :
  bind (call e answer) k p = k (answer (log p)) (push [e] p).
Proof. reflexivity. Qed.

Ltac unfold_monad :=
  unfold bind, call, emit, cerr, ret, exit, read_errno, get_flag, set_flag;
  cbv beta iota zeta.

(** ** Normal forms of the member functions *)

Section Facts.

Variable W : World.

Lemma get_current_dir_eq (p : Proc) :
  get_current_dir W p =
  match w_getcwd W (log p) with
  | Some cwd => Returned cwd (push [EGetcwd] p)
  | None =>
      Exited 1 (push [EGetcwd; EStderr (msg_cwd (w_errno W (EGetcwd :: log p)))] p)
  end.
Proof.
  unfold get_current_dir. unfold_monad.
  destruct (w_getcwd W (log p)); reflexivity.
Qed.

Lemma create_dir_eq (dir : string) (p : Proc) :
  create_dir W dir p =
  if (w_mkdir W (log p) dir DIR_MODE =? 0)%Z
  then Returned tt (push [EMkdir dir DIR_MODE] p)
  else Exited 1 (push [EMkdir dir DIR_MODE;
                       EStderr (msg_mkdir dir
                                  (w_errno W (EMkdir dir DIR_MODE :: log p)))] p).
Proof.
  unfold create_dir. unfold_monad. fold DIR_MODE.
  destruct (w_mkdir W (log p) dir DIR_MODE =? 0)%Z; reflexivity.
Qed.

Lemma maybe_create_dir_eq (dir : string) (p : Proc) :
  maybe_create_dir W dir p =
  if is_output_dir_written p then Returned tt p
  else create_dir W dir (mark_dir_written p).
Proof.
  unfold maybe_create_dir. unfold_monad.
  destruct (is_output_dir_written p); reflexivity.
Qed.

Lemma maybe_commit_transaction_eq (w : Writer) (p : Proc) :
  maybe_commit_transaction w p =
  let n := wrap_uint (num_features w + 1) in
  if m_use_transaction w && (BATCH_LIMIT <? n)%Z
  then Returned (set_num_features w 0)
         (push [ECommitTransaction (m_layer w); EStartTransaction (m_layer w)] p)
  else Returned (set_num_features w n) p.
Proof.
  unfold maybe_commit_transaction. unfold_monad.
  change (m_use_transaction (set_num_features w (wrap_uint (num_features w + 1))))
    with (m_use_transaction w).
  change (num_features (set_num_features w (wrap_uint (num_features w + 1))))
    with (wrap_uint (num_features w + 1)).
  destruct (m_use_transaction w && (BATCH_LIMIT <? wrap_uint (num_features w + 1))%Z);
    reflexivity.
Qed.

Lemma create_feature_eq (w : Writer) (f : OGRFeature) (p : Proc) :
  create_feature W w f p =
  let e := w_CreateFeature W (log p) (m_layer w) f in
  let n := wrap_uint (num_features w + 1) in
  if (e =? OGRERR_NONE)%Z then
    if m_use_transaction w && (BATCH_LIMIT <? n)%Z
    then Returned (set_num_features w 0)
           (push [ECreateFeature (m_layer w) f; EDestroyFeature f;
                  ECommitTransaction (m_layer w);
                  EStartTransaction (m_layer w)] p)
    else Returned (set_num_features w n)
           (push [ECreateFeature (m_layer w) f; EDestroyFeature f] p)
  else Exited 1 (push [ECreateFeature (m_layer w) f; EStderr (msg_feature e)] p).
Proof.
  unfold create_feature. unfold_monad.
  destruct (w_CreateFeature W (log p) (m_layer w) f =? OGRERR_NONE)%Z.
  - rewrite maybe_commit_transaction_eq. cbv zeta.
    destruct (m_use_transaction w && (BATCH_LIMIT <? wrap_uint (num_features w + 1))%Z);
      reflexivity.
  - reflexivity.
Qed.

Lemma Writer_delete_eq (w : Writer) (p : Proc) :
  Writer_delete w p =
  Returned tt
    (push ((if m_use_transaction w then [ECommitTransaction (m_layer w)] else [])
           ++ [EDestroyDataSource (m_data_source w)]) p).
Proof.
  unfold Writer_delete. unfold_monad.
  destruct (m_use_transaction w); reflexivity.
Qed.


End Facts.

Section MoreFacts.

Variable W : World.

Lemma create_layer_eq (ds : OGRDataSource) (l : string)
    (g : OGRwkbGeometryType) (p : Proc) :
  create_layer W ds l g p =
  match w_CreateLayer W (log p) ds l g LAYER_OPTIONS with
  | Some layer =>
      Returned layer (push [ECreateLayer ds l "WGS84" g LAYER_OPTIONS] p)
  | None =>
      Exited 1 (push [ECreateLayer ds l "WGS84" g LAYER_OPTIONS;
                      EStderr (msg_layer l)] p)
  end.
Proof.
  unfold create_layer. unfold_monad. fold LAYER_OPTIONS.
  destruct (w_CreateLayer W (log p) ds l g LAYER_OPTIONS); reflexivity.
Qed.

Lemma get_data_source_eq (d l : string) (p : Proc) :
  get_data_source W d l p =
  match w_GetDriverByName W (log p) "SQLite" with
  | None => Exited 1 (push [EGetDriverByName "SQLite"; EStderr msg_driver] p)
  | Some drv =>
      match get_current_dir W (push ctor_config p) with
      | Exited c p1 => Exited c p1
      | Returned cwd p1 =>
          match maybe_create_dir W (full_dir_of cwd d) p1 with
          | Exited c p2 => Exited c p2
          | Returned _ p2 =>
              Returned
                (w_CreateDataSource W (log p2) drv (store_path cwd d l) DS_OPTIONS)
                (push [ECreateDataSource drv (store_path cwd d l) DS_OPTIONS] p2)
          end
      end
  end.
Proof.
  unfold get_data_source. cbv zeta. rewrite bind_call.
  destruct (w_GetDriverByName W (log p) "SQLite") as [drv|]; [|reflexivity].
  rewrite !bind_emit, !push_push. cbn [app]. unfold ctor_config.
  unfold bind at 1.
  destruct (get_current_dir W _) as [cwd p1|c p1]; [|reflexivity].
  unfold bind at 1. fold (full_dir_of cwd d).
  destruct (maybe_create_dir W (full_dir_of cwd d) p1) as [u p2|c p2];
    reflexivity.
Qed.

Lemma Writer_new_eq (d l : string) (tx : bool) (g : OGRwkbGeometryType)
    (p : Proc) :
  Writer_new W d l tx g p =
  match get_data_source W d l p with
  | Exited c p1 => Exited c p1
  | Returned None p1 => Exited 1 (push [EStderr (msg_data_source l)] p1)
  | Returned (Some ds) p1 =>
      match create_layer W ds l g p1 with
      | Exited c p2 => Exited c p2
      | Returned layer p2 =>
          Returned {| m_layer_name := "";
                      m_use_transaction := tx;
                      m_layer := layer;
                      m_data_source := ds;
                      num_features := 0 |} p2
      end
  end.
Proof.
  unfold Writer_new. unfold bind at 1.
  destruct (get_data_source W d l p) as [[ds|] p1|c p1]; reflexivity.
Qed.

Lemma create_fields_loop_cons (w : Writer) (c : field_config)
    (rest : list field_config) (p : Proc) :
  create_fields_loop W w (c :: rest) p =
  if (w_CreateField W (log p) (m_layer w) (field_defn_of c) =? OGRERR_NONE)%Z
  then create_fields_loop W w rest (push [field_event w c] p)
  else Exited 1 (push [field_event w c; EStderr (msg_field w c)] p).
Proof.
  cbn [create_fields_loop]. unfold_monad.
  destruct (w_CreateField W (log p) (m_layer w) (field_defn_of c) =? OGRERR_NONE)%Z;
    reflexivity.
Qed.

Lemma create_fields_eq (w : Writer) (cfgs : list field_config) (p : Proc) :
  create_fields W w cfgs p =
  match create_fields_loop W w cfgs p with
  | Exited c p1 => Exited c p1
  | Returned _ p1 =>
      Returned tt
        (push (if m_use_transaction w then [EStartTransaction (m_layer w)] else [])
           p1)
  end.
Proof.
  unfold create_fields. unfold bind at 1.
  destruct (create_fields_loop W w cfgs p) as [u p1|c p1]; [|reflexivity].
  destruct (m_use_transaction w).
  - reflexivity.
  - rewrite push_nil. reflexivity.
Qed.

End MoreFacts.

(** ** Which events a piece of code can perform *)

Section Emits.

Context {A B : Type} (P : Event -> bool).

Lemma emits_ret (a : A) : emits P (ret a).
Proof. intros p. exists []. split; reflexivity. Qed.

Lemma emits_exit (c : Z) : emits P (@exit A c).
Proof. intros p. exists []. split; reflexivity. Qed.

Lemma emits_emit (e : Event) : P e = true -> emits P (emit e).
Proof.
  intros He p. exists [e]. split; [reflexivity|].
  simpl. rewrite He. reflexivity.
Qed.

Lemma emits_call (e : Event) (answer : History -> A) :
  P e = true -> emits P (call e answer).
Proof.
  intros He p. exists [e]. split; [reflexivity|].
  simpl. rewrite He. reflexivity.
Qed.

Lemma emits_bind (m : M A) (k : A -> M B) :
  emits P m -> (forall a, emits P (k a)) -> emits P (bind m k).
Proof.
  intros Hm Hk p. destruct (Hm p) as (tr1 & Hlog1 & Hall1).
  unfold bind. destruct (m p) as [a p1|c p1]; simpl in *.
  - destruct (Hk a p1) as (tr2 & Hlog2 & Hall2).
    exists (tr1 ++ tr2)%list. split.
    + rewrite Hlog2, Hlog1, rev_app_distr, app_assoc. reflexivity.
    + rewrite forallb_app, Hall1, Hall2. reflexivity.
  - exists tr1. split; assumption.
Qed.

End Emits.

Lemma emits_read_errno (P : Event -> bool) (W : World) : emits P (read_errno W).
Proof. intros p. exists []. split; reflexivity. Qed.

Lemma emits_get_flag (P : Event -> bool) : emits P get_flag.
Proof. intros p. exists []. split; reflexivity. Qed.

Lemma emits_set_flag (P : Event -> bool) (b : bool) : emits P (set_flag b).
Proof. intros p. exists []. split; reflexivity. Qed.

Ltac emits_step :=
  first
    [ apply emits_ret
    | apply emits_exit
    | apply emits_read_errno
    | apply emits_get_flag
    | apply emits_set_flag
    | apply emits_emit; reflexivity
    | apply emits_call; reflexivity
    | apply emits_bind; [|intros ?]
    | match goal with
      | |- emits _ (match ?x with _ => _ end) => destruct x
      end ].

Ltac emits_tac := unfold cerr; repeat emits_step.

Lemma events_since_ext (p p' : Proc) (tr : list Event) :
  log p' = (rev tr ++ log p)%list -> events_since p p' = tr.
Proof.
  intros H. unfold events_since. rewrite <- rev_alt, H.
  rewrite length_app, Nat.add_sub.
  rewrite <- (Nat.add_0_r (length (rev tr))), firstn_app_2.
  simpl. rewrite app_nil_r. apply rev_involutive.
Qed.

Lemma setup_no_tx (tr : list Event) :
  forallb setup_event tr = true -> forallb no_tx_op tr = true.
Proof.
  induction tr as [|e tr IH]; simpl; [reflexivity|].
  unfold setup_event at 1. unfold no_tx_op at 1.
  intros H. apply andb_prop in H. destruct H as [H1 H2].
  apply andb_prop in H1. destruct H1 as [H1 _].
  rewrite H1, (IH H2). reflexivity.
Qed.

Lemma no_tx_filter (tr : list Event) :
  forallb no_tx_op tr = true -> filter is_tx_op tr = [].
Proof.
  induction tr as [|e tr IH]; simpl; [reflexivity|].
  unfold no_tx_op at 1. intros H. apply andb_prop in H. destruct H as [H1 H2].
  apply negb_true_iff in H1. rewrite H1. auto.
Qed.

Lemma no_tx_count_commit (tr : list Event) :
  forallb no_tx_op tr = true -> count is_commit tr = 0.
Proof.
  unfold count.
  induction tr as [|e tr IH]; simpl; [reflexivity|].
  unfold no_tx_op at 1, is_tx_op. intros H.
  apply andb_prop in H. destruct H as [H1 H2].
  apply negb_true_iff, orb_false_iff in H1. destruct H1 as [H1 _].
  rewrite H1. auto.
Qed.

Lemma setup_windows (b : Z) (tr : list Event) :
  forallb setup_event tr = true ->
  windows_bounded b None tr = true /\ tx_state None tr = None.
Proof.
  induction tr as [|e tr IH]; simpl; [auto|].
  intros H. apply andb_prop in H. destruct H as [H1 H2].
  assert (Hst : tx_step None e = None).
  { destruct e; try reflexivity; discriminate H1. }
  unfold tx_state in *. simpl. rewrite Hst. simpl. auto.
Qed.

Section EmitsCode.

Variable W : World.

Lemma emits_Writer_new (d l : string) (tx : bool) (g : OGRwkbGeometryType) :
  emits setup_event (Writer_new W d l tx g).
Proof.
  unfold Writer_new, get_data_source, get_current_dir, maybe_create_dir,
    create_dir, create_layer.
  emits_tac.
Qed.

Lemma emits_create_fields_loop (w : Writer) (cfgs : list field_config) :
  emits setup_event (create_fields_loop W w cfgs).
Proof.
  induction cfgs as [|c rest IH]; cbn [create_fields_loop].
  - emits_tac.
  - emits_tac. exact IH.
Qed.

End EmitsCode.

(** ** Runs of [create_feature] *)

Lemma extends_trans (p p1 p2 : Proc) (t1 t2 : list Event) :
  log p1 = (rev t1 ++ log p)%list ->
  log p2 = (rev t2 ++ log p1)%list ->
  log p2 = (rev (t1 ++ t2) ++ log p)%list.
Proof.
  intros H1 H2. rewrite H2, H1, rev_app_distr, app_assoc. reflexivity.
Qed.

Ltac solve_within :=
  repeat (apply andb_true_intro; split);
  try reflexivity; apply Z.leb_le; lia.

Ltac chain_log H := eapply extends_trans; [|exact H]; reflexivity.

Lemma wrap_uint_small (n : Z) :
  0 <= n <= BATCH_LIMIT -> wrap_uint (n + 1) = n + 1.
Proof.
  intros H. unfold wrap_uint, UINT_MODULUS. apply Z.mod_small.
  unfold BATCH_LIMIT in H. lia.
Qed.

Lemma wrap_uint_range (z : Z) : 0 <= wrap_uint z < UINT_MODULUS.
Proof.
  unfold wrap_uint. apply Z.mod_pos_bound. unfold UINT_MODULUS. lia.
Qed.

Section Runs.

Variable W : World.

Lemma create_features_run (fs : list OGRFeature) :
  forall (w w' : Writer) (p p' : Proc),
    m_use_transaction w = true ->
    0 <= num_features w <= BATCH_LIMIT ->
    create_features W w fs p = Returned w' p' ->
    exists tr,
      log p' = (rev tr ++ log p)%list /\
      count is_commit tr = (num_features w + Z.of_nat (length fs)) / 10001 /\
      commits_restart tr = true /\
      num_features w' = (num_features w + Z.of_nat (length fs)) mod 10001 /\
      m_use_transaction w' = true /\
      m_layer w' = m_layer w /\
      m_data_source w' = m_data_source w.
Proof.
  induction fs as [|f rest IH]; intros w w' p p' Htx Hn Hrun.
  - cbn [create_features] in Hrun. unfold ret in Hrun.
    injection Hrun as <- <-. exists []. unfold BATCH_LIMIT in Hn.
    cbn [length Z.of_nat]. rewrite Z.add_0_r.
    rewrite Z.div_small, Z.mod_small by lia.
    repeat split; try reflexivity; assumption.
  - cbn [create_features] in Hrun. unfold bind in Hrun.
    rewrite create_feature_eq in Hrun. cbv zeta in Hrun.
    rewrite Htx, (wrap_uint_small _ Hn) in Hrun. cbn [andb] in Hrun.
    destruct (w_CreateFeature W (log p) (m_layer w) f =? OGRERR_NONE)%Z;
      [|discriminate].
    replace (num_features w + Z.of_nat (length (f :: rest)))
      with (num_features w + 1 + Z.of_nat (length rest))
      by (cbn [length]; lia).
    destruct (BATCH_LIMIT <? num_features w + 1)%Z eqn:Hlim.
    + apply Z.ltb_lt in Hlim. unfold BATCH_LIMIT in *.
      assert (Hfull : num_features w + 1 = 1 * 10001) by lia.
      apply IH in Hrun; [|exact Htx|cbn; lia].
      destruct Hrun as (tr & Hlog & Hc & Hr & Hnum & Htx' & Hl & Hd).
      cbn [set_num_features num_features m_layer m_data_source] in *.
      eexists. split; [chain_log Hlog|].
      assert (Hdiv : (num_features w + 1 + Z.of_nat (length rest)) / 10001
                     = 1 + (0 + Z.of_nat (length rest)) / 10001)
        by (rewrite Hfull, Z.div_add_l by lia; reflexivity).
      assert (Hmod : (num_features w + 1 + Z.of_nat (length rest)) mod 10001
                     = (0 + Z.of_nat (length rest)) mod 10001)
        by (rewrite Hfull, Z.add_comm, Z.mod_add by lia; reflexivity).
      rewrite Hdiv, Hmod, count_app, Hc.
      repeat split; try assumption.
      cbn [app commits_restart]. rewrite Z.eqb_refl, Hr. reflexivity.
    + apply Z.ltb_ge in Hlim. unfold BATCH_LIMIT in *.
      apply IH in Hrun; [|exact Htx|cbn; lia].
      destruct Hrun as (tr & Hlog & Hc & Hr & Hnum & Htx' & Hl & Hd).
      cbn [set_num_features num_features m_layer m_data_source] in *.
      eexists. split; [chain_log Hlog|].
      rewrite count_app, Hc.
      repeat split; assumption.
Qed.

Lemma create_features_windows (fs : list OGRFeature) :
  forall (w : Writer) (p : Proc) (st : option Z),
    m_use_transaction w = true ->
    0 <= num_features w <= BATCH_LIMIT ->
    st = None \/ st = Some (num_features w) ->
    exists tr,
      log (proc_of (create_features W w fs p)) = (rev tr ++ log p)%list /\
      windows_bounded (BATCH_LIMIT + 1) st tr = true.
Proof.
  induction fs as [|f rest IH]; intros w p st Htx Hn Hst.
  - exists []. split; reflexivity.
  - cbn [create_features]. unfold bind.
    rewrite create_feature_eq. cbv zeta.
    rewrite Htx, (wrap_uint_small _ Hn). cbn [andb].
    destruct (w_CreateFeature W (log p) (m_layer w) f =? OGRERR_NONE)%Z.
    + destruct (BATCH_LIMIT <? num_features w + 1)%Z eqn:Hlim.
      * destruct (IH (set_num_features w 0)
                    (push [ECreateFeature (m_layer w) f; EDestroyFeature f;
                           ECommitTransaction (m_layer w);
                           EStartTransaction (m_layer w)] p) (Some 0))
          as (tr & Hlog & Hb);
          [exact Htx |cbn; unfold BATCH_LIMIT; lia|right; reflexivity|].
        eexists. split; [chain_log Hlog|].
        rewrite windows_bounded_app. cbn [tx_state fold_left tx_step].
        rewrite Hb, andb_true_r.
        unfold BATCH_LIMIT in *.
        destruct Hst as [-> | ->]; cbn; solve_within.
      * apply Z.ltb_ge in Hlim.
        destruct (IH (set_num_features w (num_features w + 1))
                    (push [ECreateFeature (m_layer w) f; EDestroyFeature f] p)
                    (option_map Z.succ st))
          as (tr & Hlog & Hb);
          [exact Htx |cbn; unfold BATCH_LIMIT in *; lia| |].
        { destruct Hst as [-> | ->]; [left|right]; reflexivity. }
        eexists. split; [chain_log Hlog|].
        rewrite windows_bounded_app. cbn [tx_state fold_left tx_step].
        rewrite Hb, andb_true_r.
        unfold BATCH_LIMIT in *.
        destruct Hst as [-> | ->]; cbn; solve_within.
    + exists [ECreateFeature (m_layer w) f;
              EStderr (msg_feature (w_CreateFeature W (log p) (m_layer w) f))].
      split; [reflexivity|].
      unfold BATCH_LIMIT in *.
      destruct Hst as [-> | ->]; cbn; solve_within.
Qed.

Lemma Writer_new_fresh (d l : string) (tx : bool) (g : OGRwkbGeometryType)
    (p p' : Proc) (w : Writer) :
  Writer_new W d l tx g p = Returned w p' ->
  num_features w = 0 /\ m_use_transaction w = tx /\ m_layer_name w = "".
Proof.
  rewrite Writer_new_eq.
  destruct (get_data_source W d l p) as [[ds|] p1|c p1]; try discriminate.
  destruct (create_layer W ds l g p1) as [layer p2|c p2]; try discriminate.
  intros H. injection H as <- <-. repeat split; reflexivity.
Qed.

End Runs.

Lemma lifecycle_setup (W : World) (d l : string) (tx : bool)
    (g : OGRwkbGeometryType) (cfgs : list field_config)
    (p0 p1 p2 : Proc) (w : Writer) :
  Writer_new W d l tx g p0 = Returned w p1 ->
  create_fields W w cfgs p1 = Returned tt p2 ->
  exists trs,
    log p2 = (rev (trs ++ (if tx then [EStartTransaction (m_layer w)] else []))
              ++ log p0)%list /\
    forallb setup_event trs = true.
Proof.
  intros H0 H1.
  destruct (Writer_new_fresh _ _ _ _ _ _ _ _ H0) as (_ & Htx & _).
  destruct (emits_Writer_new W d l tx g p0) as (tr0 & Hlog0 & Hall0).
  rewrite H0 in Hlog0. cbn [proc_of] in Hlog0.
  rewrite create_fields_eq in H1.
  destruct (emits_create_fields_loop W w cfgs p1) as (tr1 & Hlog1 & Hall1).
  destruct (create_fields_loop W w cfgs p1) as [u q|c q]; [|discriminate].
  cbn [proc_of] in Hlog1. injection H1 as <-. rewrite Htx.
  exists (tr0 ++ tr1)%list. split.
  - rewrite <- app_assoc.
    eapply extends_trans; [exact Hlog0|].
    eapply extends_trans; [exact Hlog1|]. reflexivity.
  - rewrite forallb_app, Hall0, Hall1. reflexivity.
Qed.

(** ** C1: the number of commits over the life of a writer *)

(** C1.  A writer constructed with transactions enabled, whose schema is
    installed and on which [N] calls of [create_feature] all return, and
    which is then destroyed, has performed [N / 10001 + 1] calls of
    [CommitTransaction]: [N / 10001] during the run, each directly
    followed by [StartTransaction], and one from the destructor whatever
    the counter holds.  The counter ends at [N mod 10001], and a call that
    commits leaves it at zero. *)
Theorem commits_floor_plus_one
    (W : World) (d l : string) (g : OGRwkbGeometryType)
    (cfgs : list field_config) (fs : list OGRFeature)
    (p0 p1 p2 p3 : Proc) (w w' : Writer) :
  Writer_new W d l true g p0 = Returned w p1 ->
  create_fields W w cfgs p1 = Returned tt p2 ->
  create_features W w fs p2 = Returned w' p3 ->
  exists p4,
    Writer_delete w' p3 = Returned tt p4 /\
    count is_commit (events_since p0 p4) = Z.of_nat (length fs) / 10001 + 1 /\
    count is_commit (events_since p2 p3) = Z.of_nat (length fs) / 10001 /\
    commits_restart (events_since p2 p3) = true /\
    num_features w' = Z.of_nat (length fs) mod 10001 /\
    (forall (v v' : Writer) (f : OGRFeature) (q q' : Proc),
        m_use_transaction v = true ->
        create_feature W v f q = Returned v' q' ->
        existsb is_commit (events_since q q') = true ->
        events_since q q' =
          [ECreateFeature (m_layer v) f; EDestroyFeature f;
           ECommitTransaction (m_layer v); EStartTransaction (m_layer v)]
        /\ num_features v' = 0).
Proof.
  intros H0 H1 H2.
  destruct (lifecycle_setup _ _ _ _ _ _ _ _ _ _ H0 H1) as (trs & Hlog2 & Hall).
  destruct (Writer_new_fresh _ _ _ _ _ _ _ _ H0) as (Hn & Htx & _).
  destruct (create_features_run W fs w w' p2 p3 Htx) as
    (tr & Hlog3 & Hc & Hr & Hnum & Htx' & Hl & Hd); [rewrite Hn; unfold BATCH_LIMIT; lia|exact H2|].
  rewrite Hn in Hc, Hnum. cbn [Z.add] in Hc, Hnum.
  rewrite Writer_delete_eq, Htx'. eexists. split; [reflexivity|].
  rewrite (events_since_ext p2 p3 tr Hlog3).
  assert (Hlog4 : log (push ([ECommitTransaction (m_layer w')]
                             ++ [EDestroyDataSource (m_data_source w')]) p3)
                  = (rev ((trs ++ [EStartTransaction (m_layer w)]) ++ tr
                          ++ [ECommitTransaction (m_layer w');
                              EDestroyDataSource (m_data_source w')])
                     ++ log p0)%list).
  { eapply extends_trans; [exact Hlog2|].
    eapply extends_trans; [exact Hlog3|]. reflexivity. }
  rewrite (events_since_ext _ _ _ Hlog4).
  split; [|split; [exact Hc|split; [exact Hr|split; [exact Hnum|]]]].
  - rewrite !count_app, Hc.
    rewrite (no_tx_count_commit trs (setup_no_tx trs Hall)).
    reflexivity.
  - intros v v' f q q' Hv Hcf Hex.
    rewrite create_feature_eq in Hcf. cbv zeta in Hcf. rewrite Hv in Hcf.
    cbn [andb] in Hcf.
    destruct (w_CreateFeature W (log q) (m_layer v) f =? OGRERR_NONE)%Z;
      [|discriminate].
    destruct (BATCH_LIMIT <? wrap_uint (num_features v + 1))%Z;
      injection Hcf as <- <-; rewrite events_since_push in *;
      [split; reflexivity|discriminate].
Qed.

(** The theorem at work: three features in the all-succeeding
    environment. *)
Lemma commits_floor_plus_one_witness :
  let fs := [demo_feature; demo_feature; demo_feature] in
  let w := demo_writer true in
  let p1 := proc_of (Writer_new ok_world "out" "buildings" true wkbPolygon
                       initial_proc) in
  let p2 := proc_of (create_fields ok_world w demo_schema p1) in
  let p3 := proc_of (create_features ok_world w fs p2) in
  exists p4,
    Writer_delete (set_num_features w 3) p3 = Returned tt p4 /\
    count is_commit (events_since initial_proc p4) = 3 / 10001 + 1 /\
    count is_commit (events_since p2 p3) = 3 / 10001 /\
    commits_restart (events_since p2 p3) = true /\
    num_features (set_num_features w 3) = 3 mod 10001 /\
    (forall (v v' : Writer) (f : OGRFeature) (q q' : Proc),
        m_use_transaction v = true ->
        create_feature ok_world v f q = Returned v' q' ->
        existsb is_commit (events_since q q') = true ->
        events_since q q' =
          [ECreateFeature (m_layer v) f; EDestroyFeature f;
           ECommitTransaction (m_layer v); EStartTransaction (m_layer v)]
        /\ num_features v' = 0).
Proof.
  intros fs w p1 p2 p3.
  apply (commits_floor_plus_one ok_world "out" "buildings" wkbPolygon
           demo_schema fs initial_proc p1 p2 p3 w (set_num_features w 3));
    vm_compute; reflexivity.
Defined.

(** The scenario of the specification: 10,005 features give one commit at
    the 10,001st feature and one at teardown. *)
Example lifecycle_10005_commits :
  count is_commit
    (trace (proc_of (lifecycle ok_world "out" "buildings" true wkbPolygon
                       demo_schema (repeat demo_feature (Z.to_nat 10005))
                       initial_proc))) = 2.
Proof. vm_compute. reflexivity. Qed.

(** ** C2: how many features one transaction holds *)

(** C2, as the code has it.  Over the whole life of a writer with
    transactions enabled, in every environment and whether or not the
    process ends early, an open transaction never holds more than 10,001
    created features: the commit is triggered by the counter exceeding
    10,000, after the increment. *)
Theorem transaction_holds_at_most_10001
    (W : World) (d l : string) (g : OGRwkbGeometryType)
    (cfgs : list field_config) (fs : list OGRFeature) (p : Proc) :
  windows_bounded 10001 None
    (events_since p (proc_of (lifecycle W d l true g cfgs fs p))) = true.
Proof.
  unfold lifecycle. unfold bind at 1.
  destruct (emits_Writer_new W d l true g p) as (tr0 & Hlog0 & Hall0).
  destruct (Writer_new W d l true g p) as [w p1|c p1] eqn:H0;
    cbn [proc_of] in *.
  2:{ rewrite (events_since_ext _ _ _ Hlog0). apply setup_windows, Hall0. }
  destruct (Writer_new_fresh _ _ _ _ _ _ _ _ H0) as (Hn & Htx & _).
  unfold bind at 1. rewrite create_fields_eq, Htx.
  destruct (emits_create_fields_loop W w cfgs p1) as (tr1 & Hlog1 & Hall1).
  destruct (create_fields_loop W w cfgs p1) as [u q|c q]; cbn [proc_of] in *.
  2:{ rewrite (events_since_ext _ _ _ (extends_trans _ _ _ _ _ Hlog0 Hlog1)).
      apply setup_windows. rewrite forallb_app, Hall0, Hall1. reflexivity. }
  assert (Hall : forallb setup_event (tr0 ++ tr1) = true)
    by (rewrite forallb_app, Hall0, Hall1; reflexivity).
  destruct (setup_windows 10001 _ Hall) as (Hb01 & Hst01).
  set (t01 := (tr0 ++ tr1)%list) in *.
  set (q1 := push [EStartTransaction (m_layer w)] q).
  assert (Hlogq1 : log q1 = (rev (t01 ++ [EStartTransaction (m_layer w)])
                             ++ log p)%list).
  { eapply extends_trans; [exact (extends_trans _ _ _ _ _ Hlog0 Hlog1)|].
    reflexivity. }
  clearbody t01.
  assert (Hn' : 0 <= num_features w <= BATCH_LIMIT)
    by (rewrite Hn; unfold BATCH_LIMIT; lia).
  destruct (create_features_windows W fs w q1 (Some 0) Htx Hn')
    as (tr2 & Hlog2 & Hb2); [right; rewrite Hn; reflexivity|].
  change (BATCH_LIMIT + 1) with 10001 in Hb2.
  unfold bind at 1.
  destruct (create_features W w fs q1) as [w' p3|c p3] eqn:H2;
    cbn [proc_of] in *.
  - destruct (create_features_run W fs w w' q1 p3 Htx Hn' H2)
      as (_ & _ & _ & _ & _ & Htx' & _).
    rewrite Writer_delete_eq, Htx'. cbn [proc_of].
    assert (Hlog4 : log (push ([ECommitTransaction (m_layer w')]
                               ++ [EDestroyDataSource (m_data_source w')]) p3)
                    = (rev (((t01 ++ [EStartTransaction (m_layer w)])
                             ++ tr2)
                            ++ [ECommitTransaction (m_layer w');
                                EDestroyDataSource (m_data_source w')])
                       ++ log p)%list).
    { eapply extends_trans; [|reflexivity].
      eapply extends_trans; [exact Hlogq1|exact Hlog2]. }
    rewrite (events_since_ext _ _ _ Hlog4).
    rewrite !windows_bounded_app, !tx_state_app, Hb01, Hst01.
    cbn [tx_state fold_left tx_step windows_bounded within andb].
    change (fold_left tx_step tr2 (Some 0)) with (tx_state (Some 0) tr2).
    rewrite Hb2. reflexivity.
  - rewrite (events_since_ext _ _ _ (extends_trans _ _ _ _ _ Hlogq1 Hlog2)).
    rewrite !windows_bounded_app, !tx_state_app, Hb01, Hst01.
    cbn [tx_state fold_left tx_step windows_bounded within andb].
    rewrite Hb2. reflexivity.
Qed.

(** The bound of 10,000 fails: with 10,001 features in the all-succeeding
    environment, the transaction opened by [create_fields] holds 10,001
    features when the commit comes. *)
Lemma transaction_holds_10001_features :
  windows_bounded 10000 None
    (events_since initial_proc
       (proc_of (lifecycle ok_world "out" "buildings" true wkbPolygon
                   demo_schema (repeat demo_feature (Z.to_nat 10001))
                   initial_proc))) = false.
Proof. vm_compute. reflexivity. Qed.

(** ** C6: teardown order *)

(** C6.  The destructor always returns; with transactions enabled it
    performs exactly [CommitTransaction] on the layer and then
    [DestroyDataSource] on the store connection, whatever the feature
    counter holds; without transactions it performs the release alone. *)
Theorem destructor_commits_then_releases (w : Writer) (p : Proc) :
  exists p',
    Writer_delete w p = Returned tt p' /\
    events_since p p' =
      ((if m_use_transaction w then [ECommitTransaction (m_layer w)] else [])
       ++ [EDestroyDataSource (m_data_source w)])%list /\
    last (events_since p p') EGetcwd = EDestroyDataSource (m_data_source w) /\
    is_output_dir_written p' = is_output_dir_written p.
Proof.
  rewrite Writer_delete_eq. eexists. split; [reflexivity|].
  rewrite events_since_push.
  destruct (m_use_transaction w); repeat split; reflexivity.
Qed.

(** A writer holding four features (short of the bound) still commits
    before the release. *)
Example destructor_after_four_features :
  events_since initial_proc
    (proc_of (Writer_delete (set_num_features (demo_writer true) 4)
                initial_proc))
  = [ECommitTransaction 3; EDestroyDataSource 2].
Proof. reflexivity. Qed.

(** ** C9: the counter stays within the batch limit *)

(** C9.  With transactions enabled, whatever the counter held before, a
    call of [create_feature] that returns leaves the counter between 0 and
    10,000.  From a counter within that range the increment does not wrap
    around, and the new value is zero when the incremented counter exceeds
    10,000 and the incremented counter otherwise. *)
Theorem counter_at_most_10000
    (W : World) (w w' : Writer) (f : OGRFeature) (p p' : Proc) :
  m_use_transaction w = true ->
  create_feature W w f p = Returned w' p' ->
  0 <= num_features w' <= 10000 /\
  (0 <= num_features w <= 10000 ->
   wrap_uint (num_features w + 1) = num_features w + 1 /\
   num_features w + 1 < UINT_MODULUS /\
   num_features w' =
     if (10000 <? num_features w + 1)%Z then 0 else num_features w + 1).
Proof.
  intros Htx Hcf.
  rewrite create_feature_eq in Hcf. cbv zeta in Hcf.
  rewrite Htx in Hcf. cbn [andb] in Hcf.
  destruct (w_CreateFeature W (log p) (m_layer w) f =? OGRERR_NONE)%Z;
    [|discriminate].
  pose proof (wrap_uint_range (num_features w + 1)) as Hr.
  unfold BATCH_LIMIT in Hcf.
  destruct (10000 <? wrap_uint (num_features w + 1))%Z eqn:Hlim;
    injection Hcf as <- <-; cbn [set_num_features num_features].
  - split; [lia|]. intros Hn.
    rewrite (wrap_uint_small _ Hn) in *. rewrite Hlim.
    unfold UINT_MODULUS. repeat split; lia.
  - apply Z.ltb_ge in Hlim. split; [lia|]. intros Hn.
    rewrite (wrap_uint_small _ Hn) in *.
    apply Z.ltb_ge in Hlim. rewrite Hlim.
    unfold UINT_MODULUS. repeat split; lia.
Qed.

(** The theorem at the boundary: the 10,001st feature of a batch resets
    the counter. *)
Lemma counter_at_most_10000_witness :
  let w := set_num_features (demo_writer true) 10000 in
  let o := create_feature ok_world w demo_feature initial_proc in
  0 <= num_features (set_num_features w 0) <= 10000 /\
  (0 <= num_features w <= 10000 ->
   wrap_uint (num_features w + 1) = num_features w + 1 /\
   num_features w + 1 < UINT_MODULUS /\
   num_features (set_num_features w 0) =
     if (10000 <? num_features w + 1)%Z then 0 else num_features w + 1).
Proof.
  intros w o.
  apply (counter_at_most_10000 ok_world w (set_num_features w 0) demo_feature
           initial_proc (proc_of o)); vm_compute; reflexivity.
Defined.

(** ** C10: a writer without transactions *)

Lemma create_features_plain (W : World) (fs : list OGRFeature) :
  forall (w w' : Writer) (p p' : Proc),
    m_use_transaction w = false ->
    0 <= num_features w < UINT_MODULUS ->
    create_features W w fs p = Returned w' p' ->
    num_features w' = wrap_uint (num_features w + Z.of_nat (length fs)).
Proof.
  induction fs as [|f rest IH]; intros w w' p p' Htx Hn Hrun.
  - cbn in Hrun. unfold ret in Hrun. injection Hrun as <- <-.
    rewrite Z.add_0_r. unfold wrap_uint. symmetry. apply Z.mod_small, Hn.
  - cbn [create_features] in Hrun. unfold bind in Hrun.
    rewrite create_feature_eq in Hrun. cbv zeta in Hrun.
    rewrite Htx in Hrun. cbn [andb] in Hrun.
    destruct (w_CreateFeature W (log p) (m_layer w) f =? OGRERR_NONE)%Z;
      [|discriminate].
    apply IH in Hrun; [|exact Htx|apply wrap_uint_range].
    cbn [set_num_features num_features] in Hrun.
    rewrite Hrun. unfold wrap_uint.
    rewrite Zplus_mod_idemp_l. f_equal. cbn [length]. lia.
Qed.

(** C10.  A writer with [m_use_transaction] false performs neither
    [StartTransaction] nor [CommitTransaction] in [create_fields], in
    [create_feature] or in its destructor, whatever their outcome.  Each
    returning [create_feature] sets the counter to its [unsigned int]
    successor, and no call sets it to zero: a run of [N] returning calls
    from a counter [n], with [n + N] below [2^32], ends at [n + N]. *)
Theorem no_transaction_ops_when_disabled (W : World) (w : Writer) :
  m_use_transaction w = false ->
  (forall cfgs p,
      filter is_tx_op (events_since p (proc_of (create_fields W w cfgs p))) = []) /\
  (forall f p,
      filter is_tx_op (events_since p (proc_of (create_feature W w f p))) = []) /\
  (forall p,
      filter is_tx_op (events_since p (proc_of (Writer_delete w p))) = []) /\
  (forall f p w' p',
      create_feature W w f p = Returned w' p' ->
      num_features w' = wrap_uint (num_features w + 1) /\
      m_use_transaction w' = false) /\
  (forall fs p w' p',
      create_features W w fs p = Returned w' p' ->
      0 <= num_features w ->
      num_features w + Z.of_nat (length fs) < UINT_MODULUS ->
      num_features w' = num_features w + Z.of_nat (length fs)).
Proof.
  intros Htx. split; [|split; [|split; [|split]]].
  - intros cfgs p. rewrite create_fields_eq, Htx.
    destruct (emits_create_fields_loop W w cfgs p) as (tr & Hlog & Hall).
    destruct (create_fields_loop W w cfgs p) as [u q|c q]; cbn [proc_of] in *.
    + rewrite push_nil, (events_since_ext _ _ _ Hlog).
      apply no_tx_filter, setup_no_tx, Hall.
    + rewrite (events_since_ext _ _ _ Hlog).
      apply no_tx_filter, setup_no_tx, Hall.
  - intros f p. rewrite create_feature_eq. cbv zeta. rewrite Htx. cbn [andb].
    destruct (w_CreateFeature W (log p) (m_layer w) f =? OGRERR_NONE)%Z;
      cbn [proc_of]; rewrite events_since_push; reflexivity.
  - intros p. rewrite Writer_delete_eq, Htx. cbn [proc_of].
    rewrite events_since_push. reflexivity.
  - intros f p w' p' H.
    rewrite create_feature_eq in H. cbv zeta in H. rewrite Htx in H.
    cbn [andb] in H.
    destruct (w_CreateFeature W (log p) (m_layer w) f =? OGRERR_NONE)%Z;
      [|discriminate].
    injection H as <- <-. split; [reflexivity|exact Htx].
  - intros fs p w' p' Hrun Hn Hsum.
    assert (Hrange : 0 <= num_features w < UINT_MODULUS) by lia.
    rewrite (create_features_plain W fs w w' p p' Htx Hrange Hrun).
    apply Z.mod_small. lia.
Qed.

(** The theorem on a writer constructed without transactions. *)
Lemma no_transaction_ops_when_disabled_witness :
  let w := demo_writer false in
  (forall cfgs p,
      filter is_tx_op
        (events_since p (proc_of (create_fields ok_world w cfgs p))) = []) /\
  (forall f p,
      filter is_tx_op
        (events_since p (proc_of (create_feature ok_world w f p))) = []) /\
  (forall p,
      filter is_tx_op (events_since p (proc_of (Writer_delete w p))) = []) /\
  (forall f p w' p',
      create_feature ok_world w f p = Returned w' p' ->
      num_features w' = wrap_uint (num_features w + 1) /\
      m_use_transaction w' = false) /\
  (forall fs p w' p',
      create_features ok_world w fs p = Returned w' p' ->
      0 <= num_features w ->
      num_features w + Z.of_nat (length fs) < UINT_MODULUS ->
      num_features w' = num_features w + Z.of_nat (length fs)).
Proof.
  intros w. apply (no_transaction_ops_when_disabled ok_world w). reflexivity.
Defined.

(** Without transactions the counter passes the batch limit: 10,002
    features leave it at 10,002 and the trace holds no transaction
    operation, from construction to destruction. *)
Example lifecycle_without_transactions :
  let p := proc_of (lifecycle ok_world "out" "roads" false wkbLineString
                      demo_schema (repeat demo_feature (Z.to_nat 10002))
                      initial_proc) in
  filter is_tx_op (trace p) = [] /\
  count is_create_feature (trace p) = 10002.
Proof. vm_compute. split; reflexivity. Qed.

(** ** C4: a way whose geometry cannot be built *)

Lemma handle_ways_app (W : World) (pre post : list WayResult) :
  forall (w w1 : Writer) (p p1 : Proc),
    handle_ways W w pre p = Returned w1 p1 ->
    handle_ways W w (pre ++ post) p = handle_ways W w1 post p1.
Proof.
  induction pre as [|r pre IH]; intros w w1 p p1 H.
  - cbn in H. unfold ret in H. injection H as <- <-. reflexivity.
  - cbn [app handle_ways] in *. unfold bind in *.
    destruct (handle_way W w r p) as [w0 p0|c p0]; [|discriminate].
    apply IH, H.
Qed.

Lemma read_show_int (z : Z) : read_int (show_int z) = Some z.
Proof.
  unfold read_int, show_int.
  assert (H : forall d, option_map Z.of_int
                          (NilZero.int_of_string (NilZero.string_of_int d))
                        = Some (Z.of_int d)).
  { intros d.
    destruct (Decimal.int_eq_dec d (Decimal.Pos Decimal.Nil)) as [->|Hp];
      [reflexivity|].
    destruct (Decimal.int_eq_dec d (Decimal.Neg Decimal.Nil)) as [->|Hn];
      [reflexivity|].
    rewrite (NilZero.isi d Hp Hn). reflexivity. }
  rewrite H, DecimalZ.of_to. reflexivity.
Qed.

Lemma string_of_uint_no_space (d : Decimal.uint) :
  has_no_space (NilEmpty.string_of_uint d) = true.
Proof. induction d; cbn; auto. Qed.

Lemma show_int_no_space (z : Z) : has_no_space (show_int z) = true.
Proof.
  unfold show_int.
  destruct (Z.to_int z) as [d|d]; cbn [NilZero.string_of_int];
    destruct d; try reflexivity; cbn; apply string_of_uint_no_space.
Qed.

Lemma until_space_app (s r : string) :
  has_no_space s = true -> until_space (s ++ String " " r) = s.
Proof.
  induction s as [|c s IH]; cbn; [reflexivity|].
  intros H. apply andb_prop in H. destruct H as [Hc Hs].
  apply negb_true_iff in Hc. rewrite Hc, (IH Hs). reflexivity.
Qed.

Lemma from_space_app (s r : string) :
  has_no_space s = true -> from_space (s ++ String " " r) = String " " r.
Proof.
  induction s as [|c s IH]; cbn; [reflexivity|].
  intros H. apply andb_prop in H. destruct H as [Hc Hs].
  apply negb_true_iff in Hc. rewrite Hc. exact (IH Hs).
Qed.

Lemma remove_last_app (s : string) (c : ascii) :
  remove_last (s ++ String c "") = s.
Proof.
  induction s as [|a s IH]; [reflexivity|].
  cbn [append remove_last]. rewrite IH.
  destruct s; reflexivity.
Qed.

(** C4.  The handler for a way whose geometry construction failed writes
    exactly one diagnostic to [std::cerr] and returns: no feature is
    created, the process does not end, and neither the writer nor the
    directory flag changes.  The diagnostic identifies the record and the
    cause: the way's id is read back from it as the decimal number after
    the opening words, and the cause [e.what()] as the text after
    [e.what() =].  In the accept-path operation as the spec describes it,
    a record whose geometry fails goes to this handler, and in a run of
    records the ones after it are processed with the writer exactly as
    the ones before it left it. *)
Theorem geometry_error_is_reported_and_skipped
    (W : World) (w : Writer) (what : string) (way_id : Z) (p : Proc) :
  exists p',
    catch_geometry_error w what way_id p = Returned tt p' /\
    events_since p p' =
      [EStderr ("Ignoring illegal geometry for way with id = "
                ++ show_int way_id ++ " e.what() = " ++ what ++ endl)] /\
    diagnostic_way_id
      ("Ignoring illegal geometry for way with id = "
       ++ show_int way_id ++ " e.what() = " ++ what ++ endl) = Some way_id /\
    diagnostic_cause
      ("Ignoring illegal geometry for way with id = "
       ++ show_int way_id ++ " e.what() = " ++ what ++ endl) = Some what /\
    (forall other : Z, show_int other = show_int way_id -> other = way_id) /\
    is_output_dir_written p' = is_output_dir_written p /\
    handle_way W w (WayGeometryError what way_id) p = Returned w p' /\
    count is_create_feature (events_since p p') = 0 /\
    count is_stderr (events_since p p') = 1 /\
    (forall (pre post : list WayResult) (w0 w1 : Writer) (q q1 : Proc),
        handle_ways W w0 pre q = Returned w1 q1 ->
        handle_ways W w0 (pre ++ WayGeometryError what way_id :: post) q =
        handle_ways W w1 post (push [EStderr (msg_geometry what way_id)] q1)).
Proof.
  exists (push [EStderr (msg_geometry what way_id)] p).
  rewrite events_since_push.
  assert (Hid : diagnostic_way_id
                  ("Ignoring illegal geometry for way with id = "
                   ++ show_int way_id ++ " e.what() = " ++ what ++ endl)
                = Some way_id).
  { unfold diagnostic_way_id.
    change (drop_prefix "Ignoring illegal geometry for way with id = "
              ("Ignoring illegal geometry for way with id = "
               ++ show_int way_id ++ " e.what() = " ++ what ++ endl))
      with (Some (show_int way_id
                  ++ String " " ("e.what() = " ++ what ++ endl))).
    cbv beta iota.
    rewrite until_space_app by apply show_int_no_space.
    apply read_show_int. }
  assert (Hcause : diagnostic_cause
                     ("Ignoring illegal geometry for way with id = "
                      ++ show_int way_id ++ " e.what() = " ++ what ++ endl)
                   = Some what).
  { unfold diagnostic_cause.
    change (drop_prefix "Ignoring illegal geometry for way with id = "
              ("Ignoring illegal geometry for way with id = "
               ++ show_int way_id ++ " e.what() = " ++ what ++ endl))
      with (Some (show_int way_id
                  ++ String " " ("e.what() = " ++ what ++ endl))).
    cbv beta iota.
    rewrite from_space_app by apply show_int_no_space.
    change (drop_prefix " e.what() = "
              (String " " ("e.what() = " ++ what ++ endl)))
      with (Some (what ++ endl)).
    cbv beta iota.
    unfold endl. rewrite remove_last_app. reflexivity. }
  assert (Hinj : forall other : Z,
             show_int other = show_int way_id -> other = way_id).
  { intros other H. apply (f_equal read_int) in H.
    rewrite !read_show_int in H. injection H as ->. reflexivity. }
  repeat split; try assumption.
  intros pre post w0 w1 q q1 H.
  rewrite (handle_ways_app W pre _ w0 w1 q q1 H). reflexivity.
Qed.

(** Geometry-error isolation on a concrete run: a valid way, a degenerate
    one, a valid way.  Both valid ways become features, the degenerate one
    leaves one diagnostic, and the run returns. *)
Example degenerate_way_is_isolated :
  let run := handle_ways ok_world (demo_writer true)
               [WayFeature demo_feature;
                WayGeometryError "need at least two points for linestring" 4711;
                WayFeature demo_feature] in
  exists w p,
    run initial_proc = Returned w p /\
    num_features w = 2 /\
    trace p =
      [ECreateFeature 3 demo_feature; EDestroyFeature demo_feature;
       EStderr ("Ignoring illegal geometry for way with id = 4711"
                ++ " e.what() = need at least two points for linestring"
                ++ endl);
       ECreateFeature 3 demo_feature; EDestroyFeature demo_feature].
Proof. do 2 eexists. vm_compute. repeat split. Qed.

(** The theorem on way 4711: the text of the diagnostic, the id and the
    cause read back from it, and a run of one valid way, the failing one
    and another valid way. *)
Lemma geometry_error_is_reported_and_skipped_witness :
  let cause := "need at least two points for linestring" in
  let line := "Ignoring illegal geometry for way with id = 4711 e.what() = need at least two points for linestring" ++ endl in
  let bad := WayGeometryError cause 4711 in
  events_since initial_proc
    (proc_of (catch_geometry_error (demo_writer true) cause 4711 initial_proc))
  = [EStderr line] /\
  diagnostic_way_id line = Some 4711 /\
  diagnostic_cause line = Some cause /\
  handle_ways ok_world (demo_writer true)
    ([WayFeature demo_feature] ++ bad :: [WayFeature demo_feature])
    initial_proc
  = handle_ways ok_world (set_num_features (demo_writer true) 1)
      [WayFeature demo_feature]
      (push [EStderr line]
         (push [ECreateFeature 3 demo_feature; EDestroyFeature demo_feature]
            initial_proc)).
Proof.
  intros cause line bad.
  destruct (geometry_error_is_reported_and_skipped ok_world (demo_writer true)
              cause 4711 initial_proc)
    as (p' & Hret & Hev & Hid & Hcause & _ & _ & _ & _ & _ & Hrun).
  split; [|split; [exact Hid|split; [exact Hcause|]]].
  - rewrite Hret. exact Hev.
  - apply Hrun. vm_compute. reflexivity.
Defined.

(** ** C3: the output directory is created at most once *)

Lemma count_rev (f : Event -> bool) (tr : list Event) :
  count f (rev tr) = count f tr.
Proof.
  unfold count. induction tr as [|e tr IH]; [reflexivity|].
  cbn [rev]. rewrite filter_app, length_app. cbn [filter].
  destruct (f e); cbn [length] in *; lia.
Qed.

Section MkdirAccounting.

Context {A B : Type}.

Lemma kma_ret (a : A) : keeps_mkdir_accounted (ret a).
Proof. intros p H. exact H. Qed.

Lemma kma_exit (c : Z) : keeps_mkdir_accounted (@exit A c).
Proof. intros p H. exact H. Qed.

Lemma kma_emit (e : Event) : is_mkdir e = false -> keeps_mkdir_accounted (emit e).
Proof.
  intros He p H. unfold mkdir_accounted, count in *. cbn.
  rewrite He. exact H.
Qed.

Lemma kma_call (e : Event) (answer : History -> A) :
  is_mkdir e = false -> keeps_mkdir_accounted (call e answer).
Proof.
  intros He p H. unfold mkdir_accounted, count in *. cbn.
  rewrite He. exact H.
Qed.

Lemma kma_bind (m : M A) (k : A -> M B) :
  keeps_mkdir_accounted m -> (forall a, keeps_mkdir_accounted (k a)) ->
  keeps_mkdir_accounted (bind m k).
Proof.
  intros Hm Hk p H. specialize (Hm p H). unfold bind.
  destruct (m p) as [a p1|c p1]; cbn [proc_of] in *.
  - apply Hk, Hm.
  - exact Hm.
Qed.

End MkdirAccounting.

Lemma kma_read_errno (W : World) : keeps_mkdir_accounted (read_errno W).
Proof. intros p H. exact H. Qed.

Lemma kma_maybe_create_dir (W : World) (dir : string) :
  keeps_mkdir_accounted (maybe_create_dir W dir).
Proof.
  intros p H. rewrite maybe_create_dir_eq.
  unfold mkdir_accounted in *.
  destruct (is_output_dir_written p) eqn:Hflag;
    [cbn [proc_of]; rewrite Hflag; exact H|].
  pose proof (count_nonneg is_mkdir (log p)) as Hpos.
  rewrite create_dir_eq.
  destruct (w_mkdir W (log (mark_dir_written p)) dir DIR_MODE =? 0)%Z;
    unfold count in *; cbn in *; lia.
Qed.

Ltac kma_step :=
  first
    [ apply kma_ret
    | apply kma_exit
    | apply kma_read_errno
    | apply kma_maybe_create_dir
    | apply kma_emit; reflexivity
    | apply kma_call; reflexivity
    | apply kma_bind; [|intros ?]
    | match goal with
      | |- keeps_mkdir_accounted (match ?x with _ => _ end) => destruct x
      end ].

Ltac kma_tac := unfold cerr; repeat kma_step.

Section MkdirCode.

Variable W : World.

Lemma kma_Writer_new (d l : string) (tx : bool) (g : OGRwkbGeometryType) :
  keeps_mkdir_accounted (Writer_new W d l tx g).
Proof.
  unfold Writer_new, get_data_source, get_current_dir, create_layer. kma_tac.
Qed.

Lemma kma_create_fields (w : Writer) (cfgs : list field_config) :
  keeps_mkdir_accounted (create_fields W w cfgs).
Proof.
  unfold create_fields. apply kma_bind; [|intros ?; kma_tac].
  induction cfgs as [|c rest IH]; cbn [create_fields_loop]; kma_tac.
  exact IH.
Qed.

Lemma kma_create_feature (w : Writer) (f : OGRFeature) :
  keeps_mkdir_accounted (create_feature W w f).
Proof. unfold create_feature, maybe_commit_transaction. kma_tac. Qed.

Lemma kma_Writer_delete (w : Writer) : keeps_mkdir_accounted (Writer_delete w).
Proof. unfold Writer_delete. kma_tac. Qed.

Lemma kma_catch_geometry_error (w : Writer) (what : string) (way_id : Z) :
  keeps_mkdir_accounted (catch_geometry_error w what way_id).
Proof. unfold catch_geometry_error. kma_tac. Qed.

Lemma kma_run_call (h : Heap) (c : Call) :
  keeps_mkdir_accounted (run_call W h c).
Proof.
  destruct c; cbn [run_call]; try destruct (live h i);
    repeat first
      [ apply kma_Writer_new | apply kma_create_fields
      | apply kma_create_feature | apply kma_Writer_delete
      | apply kma_catch_geometry_error | kma_step ].
Qed.

Lemma kma_run_calls (cs : list Call) :
  forall h, keeps_mkdir_accounted (run_calls W h cs).
Proof.
  induction cs as [|c rest IH]; intros h; cbn [run_calls].
  - apply kma_ret.
  - apply kma_bind; [apply kma_run_call|exact IH].
Qed.

End MkdirCode.

(** C3.  In a process that starts with the flag unset and then constructs
    writers and calls their members in any order, in any environment,
    [mkdir] is invoked at most once.  [maybe_create_dir] invokes it exactly
    when the flag is unset, and leaves the flag set; a construction that
    finds the flag set invokes no [mkdir], and [maybe_create_dir] then
    returns at once, the process state untouched. *)
Theorem mkdir_at_most_once (W : World) (cs : list Call) :
  count is_mkdir (trace (proc_of (run_calls W [] cs initial_proc))) <= 1 /\
  (forall dir p,
      count is_mkdir (events_since p (proc_of (maybe_create_dir W dir p)))
      = (if is_output_dir_written p then 0 else 1) /\
      is_output_dir_written (proc_of (maybe_create_dir W dir p)) = true) /\
  (forall dir p,
      is_output_dir_written p = true ->
      maybe_create_dir W dir p = Returned tt p) /\
  (forall d l tx g p,
      is_output_dir_written p = true ->
      count is_mkdir (events_since p (proc_of (Writer_new W d l tx g p))) = 0).
Proof.
  split; [|split; [|split]].
  - unfold trace. rewrite <- rev_alt, count_rev.
    assert (H0 : mkdir_accounted initial_proc) by (unfold mkdir_accounted; cbn; lia).
    pose proof (kma_run_calls W cs [] initial_proc H0) as H.
    unfold mkdir_accounted in H.
    destruct (is_output_dir_written _) in H; lia.
  - intros dir p. rewrite maybe_create_dir_eq.
    destruct (is_output_dir_written p) eqn:Hflag; cbn [proc_of].
    + rewrite events_since_refl. split; [reflexivity|exact Hflag].
    + rewrite create_dir_eq.
      destruct (w_mkdir W (log (mark_dir_written p)) dir DIR_MODE =? 0)%Z;
        cbn [proc_of]; rewrite events_since_mark; split; reflexivity.
  - intros dir p Hflag. rewrite maybe_create_dir_eq, Hflag. reflexivity.
  - intros d l tx g p Hflag.
    rewrite Writer_new_eq, get_data_source_eq.
    destruct (w_GetDriverByName W (log p) "SQLite") as [drv|];
      [|cbn [proc_of]; rewrite events_since_push; reflexivity].
    rewrite get_current_dir_eq.
    destruct (w_getcwd W (log (push ctor_config p))) as [cwd|];
      [|cbn [proc_of]; rewrite push_push, events_since_push; reflexivity].
    rewrite maybe_create_dir_eq.
    change (is_output_dir_written (push [EGetcwd] (push ctor_config p)))
      with (is_output_dir_written p).
    rewrite Hflag.
    destruct (w_CreateDataSource W _ drv _ DS_OPTIONS) as [ds|];
      [|cbn [proc_of]; rewrite !push_push, events_since_push; reflexivity].
    rewrite create_layer_eq.
    destruct (w_CreateLayer W _ ds l g LAYER_OPTIONS) as [layer|];
      cbn [proc_of]; rewrite !push_push, events_since_push; reflexivity.
Qed.

(** The theorem on two writers for the same directory: the second
    construction finds the flag set. *)
Lemma mkdir_at_most_once_witness :
  let cs := [CNew "out" "buildings" true wkbPolygon;
             CNew "out" "roads" true wkbLineString] in
  let p := proc_of (run_calls ok_world [] cs initial_proc) in
  count is_mkdir (trace p) <= 1 /\
  maybe_create_dir ok_world "/home/osm/out" p = Returned tt p.
Proof.
  intros cs p.
  destruct (mkdir_at_most_once ok_world cs) as (H1 & _ & H3 & _).
  split; [exact H1|apply H3; reflexivity].
Defined.

(** Two writers, one directory: one [mkdir], two store files, and the
    second construction returns. *)
Example two_writers_one_mkdir :
  let cs := [CNew "out" "buildings" true wkbPolygon;
             CNew "out" "roads" true wkbLineString] in
  exists h p,
    run_calls ok_world [] cs initial_proc = Returned h p /\
    length h = 2%nat /\
    filter (fun e => is_mkdir e || is_create_data_source e) (trace p) =
      [EMkdir "/home/osm/out" 493;
       ECreateDataSource 1 "/home/osm/out/buildings.sqlite" ["SPATIALITE=TRUE"];
       ECreateDataSource 1 "/home/osm/out/roads.sqlite" ["SPATIALITE=TRUE"]].
Proof. do 2 eexists. vm_compute. repeat split. Qed.

(** ** C5: fatal conditions *)

Section ExitsWithDiagnostic.

Context {A B : Type}.

Lemma ewd_ret (a : A) : exits_with_diagnostic (ret a).
Proof. intros p c p' H. discriminate H. Qed.

Lemma ewd_emit (e : Event) : exits_with_diagnostic (emit e).
Proof. intros p c p' H. discriminate H. Qed.

Lemma ewd_call (e : Event) (answer : History -> A) :
  exits_with_diagnostic (call e answer).
Proof. intros p c p' H. discriminate H. Qed.

Lemma ewd_fatal (msg : string) :
  exits_with_diagnostic (cerr msg ;; @exit A 1).
Proof.
  intros p c p' H. cbv [bind cerr emit exit] in H.
  injection H as <- <-. split; [reflexivity|].
  exists msg, (log p). reflexivity.
Qed.

Lemma ewd_bind (m : M A) (k : A -> M B) :
  exits_with_diagnostic m -> (forall a, exits_with_diagnostic (k a)) ->
  exits_with_diagnostic (bind m k).
Proof.
  intros Hm Hk p c p' H. unfold bind in H.
  destruct (m p) as [a p1|c1 p1] eqn:Hmp.
  - exact (Hk a p1 c p' H).
  - injection H as <- <-. exact (Hm p c1 p1 Hmp).
Qed.

End ExitsWithDiagnostic.

Lemma ewd_read_errno (W : World) : exits_with_diagnostic (read_errno W).
Proof. intros p c p' H. discriminate H. Qed.

Lemma ewd_get_flag : exits_with_diagnostic get_flag.
Proof. intros p c p' H. discriminate H. Qed.

Lemma ewd_set_flag (b : bool) : exits_with_diagnostic (set_flag b).
Proof. intros p c p' H. discriminate H. Qed.

Ltac ewd_step :=
  first
    [ apply ewd_fatal
    | apply ewd_ret
    | apply ewd_read_errno
    | apply ewd_get_flag
    | apply ewd_set_flag
    | apply ewd_emit
    | apply ewd_call
    | apply ewd_bind; [|intros ?]
    | match goal with
      | |- exits_with_diagnostic (match ?x with _ => _ end) => destruct x
      end ].

Ltac ewd_tac := repeat ewd_step.

Section FatalCode.

Variable W : World.

Lemma ewd_Writer_new (d l : string) (tx : bool) (g : OGRwkbGeometryType) :
  exits_with_diagnostic (Writer_new W d l tx g).
Proof.
  unfold Writer_new, get_data_source, get_current_dir, maybe_create_dir,
    create_dir, create_layer.
  ewd_tac.
Qed.

Lemma ewd_create_fields (w : Writer) (cfgs : list field_config) :
  exits_with_diagnostic (create_fields W w cfgs).
Proof.
  unfold create_fields. apply ewd_bind; [|intros ?; ewd_tac].
  induction cfgs as [|c rest IH]; cbn [create_fields_loop]; ewd_tac.
  exact IH.
Qed.

Lemma ewd_create_feature (w : Writer) (f : OGRFeature) :
  exits_with_diagnostic (create_feature W w f).
Proof. unfold create_feature, maybe_commit_transaction. ewd_tac. Qed.

Lemma create_fields_loop_app (w : Writer) (pre post : list field_config) :
  forall p p1,
    create_fields_loop W w pre p = Returned tt p1 ->
    create_fields_loop W w (pre ++ post) p = create_fields_loop W w post p1.
Proof.
  induction pre as [|c pre IH]; intros p p1 H.
  - cbn in H. unfold ret in H. injection H as <-. reflexivity.
  - cbn [app]. rewrite create_fields_loop_cons in *.
    destruct (w_CreateField W (log p) (m_layer w) (field_defn_of c) =? OGRERR_NONE)%Z;
      [|discriminate].
    apply IH, H.
Qed.

End FatalCode.

Section CtorStages.

Variable W : World.
Variables (d l : string) (tx : bool) (g : OGRwkbGeometryType) (p : Proc).

Lemma ctor_until_getcwd (drv : OGRSFDriver) :
  w_GetDriverByName W (log p) "SQLite" = Some drv ->
  Writer_new W d l tx g p =
  match w_getcwd W (log (at_getcwd p)) with
  | None =>
      Exited 1 (push [EGetcwd;
                      EStderr (msg_cwd (w_errno W (EGetcwd :: log (at_getcwd p))))]
                  (at_getcwd p))
  | Some cwd =>
      match maybe_create_dir W (full_dir_of cwd d) (after_getcwd p) with
      | Exited c p2 => Exited c p2
      | Returned _ p2 =>
          match w_CreateDataSource W (log p2) drv (store_path cwd d l) DS_OPTIONS with
          | None =>
              Exited 1 (push [ECreateDataSource drv (store_path cwd d l) DS_OPTIONS;
                              EStderr (msg_data_source l)] p2)
          | Some ds =>
              match create_layer W ds l g
                      (push [ECreateDataSource drv (store_path cwd d l) DS_OPTIONS] p2)
              with
              | Exited c p3 => Exited c p3
              | Returned layer p3 =>
                  Returned {| m_layer_name := "";
                              m_use_transaction := tx;
                              m_layer := layer;
                              m_data_source := ds;
                              num_features := 0 |} p3
              end
          end
      end
  end.
Proof.
  intros Hdrv.
  rewrite Writer_new_eq, get_data_source_eq, Hdrv, get_current_dir_eq.
  fold (at_getcwd p).
  destruct (w_getcwd W (log (at_getcwd p))) as [cwd|]; [|reflexivity].
  fold (after_getcwd p).
  destruct (maybe_create_dir W (full_dir_of cwd d) (after_getcwd p))
    as [u p2|c p2]; [|reflexivity].
  destruct (w_CreateDataSource W (log p2) drv (store_path cwd d l) DS_OPTIONS);
    reflexivity.
Qed.

Lemma ctor_dir_step (cwd : string) :
  dir_step_ok W p cwd d ->
  maybe_create_dir W (full_dir_of cwd d) (after_getcwd p) =
  Returned tt (at_create_data_source p cwd d).
Proof.
  unfold dir_step_ok, at_create_data_source. intros Hdir.
  rewrite maybe_create_dir_eq.
  change (is_output_dir_written (after_getcwd p)) with (is_output_dir_written p).
  destruct (is_output_dir_written p); [reflexivity|].
  rewrite create_dir_eq.
  change (log (mark_dir_written (after_getcwd p))) with (log (after_getcwd p)).
  rewrite (Hdir eq_refl). reflexivity.
Qed.

End CtorStages.

(** C5.  Each fatal condition ends the process with status 1 right after
    one diagnostic on [std::cerr], the failing call being the last call
    made.  In order: the driver is not available; [getcwd] fails; [mkdir]
    fails; the data source is not created; the layer is not created; a
    field is rejected; a feature is rejected.  Conversely whenever the
    constructor, [create_fields] or [create_feature] end the process, the
    status is 1 and the last event is a diagnostic. *)
Theorem fatal_conditions_exit (W : World) :
  (forall d l tx g p,
      w_GetDriverByName W (log p) "SQLite" = None ->
      Writer_new W d l tx g p =
      Exited 1 (push [EGetDriverByName "SQLite"; EStderr msg_driver] p)) /\
  (forall d l tx g p drv,
      w_GetDriverByName W (log p) "SQLite" = Some drv ->
      w_getcwd W (log (at_getcwd p)) = None ->
      Writer_new W d l tx g p =
      Exited 1 (push [EGetcwd;
                      EStderr (msg_cwd (w_errno W (EGetcwd :: log (at_getcwd p))))]
                  (at_getcwd p))) /\
  (forall d l tx g p drv cwd,
      w_GetDriverByName W (log p) "SQLite" = Some drv ->
      w_getcwd W (log (at_getcwd p)) = Some cwd ->
      is_output_dir_written p = false ->
      w_mkdir W (log (after_getcwd p)) (full_dir_of cwd d) DIR_MODE <> 0 ->
      Writer_new W d l tx g p =
      Exited 1
        (push [EMkdir (full_dir_of cwd d) DIR_MODE;
               EStderr (msg_mkdir (full_dir_of cwd d)
                          (w_errno W (EMkdir (full_dir_of cwd d) DIR_MODE
                                      :: log (after_getcwd p))))]
           (mark_dir_written (after_getcwd p)))) /\
  (forall d l tx g p drv cwd,
      w_GetDriverByName W (log p) "SQLite" = Some drv ->
      w_getcwd W (log (at_getcwd p)) = Some cwd ->
      dir_step_ok W p cwd d ->
      w_CreateDataSource W (log (at_create_data_source p cwd d)) drv
        (store_path cwd d l) DS_OPTIONS = None ->
      Writer_new W d l tx g p =
      Exited 1 (push [ECreateDataSource drv (store_path cwd d l) DS_OPTIONS;
                      EStderr (msg_data_source l)]
                  (at_create_data_source p cwd d))) /\
  (forall d l tx g p drv cwd ds,
      w_GetDriverByName W (log p) "SQLite" = Some drv ->
      w_getcwd W (log (at_getcwd p)) = Some cwd ->
      dir_step_ok W p cwd d ->
      w_CreateDataSource W (log (at_create_data_source p cwd d)) drv
        (store_path cwd d l) DS_OPTIONS = Some ds ->
      w_CreateLayer W (log (at_create_layer p drv cwd d l)) ds l g
        LAYER_OPTIONS = None ->
      Writer_new W d l tx g p =
      Exited 1 (push [ECreateLayer ds l "WGS84" g LAYER_OPTIONS;
                      EStderr (msg_layer l)]
                  (at_create_layer p drv cwd d l))) /\
  (forall w pre c post p p1,
      create_fields_loop W w pre p = Returned tt p1 ->
      w_CreateField W (log p1) (m_layer w) (field_defn_of c) <> OGRERR_NONE ->
      create_fields W w (pre ++ c :: post) p =
      Exited 1 (push [field_event w c; EStderr (msg_field w c)] p1)) /\
  (forall w f p,
      w_CreateFeature W (log p) (m_layer w) f <> OGRERR_NONE ->
      create_feature W w f p =
      Exited 1 (push [ECreateFeature (m_layer w) f;
                      EStderr (msg_feature
                                 (w_CreateFeature W (log p) (m_layer w) f))] p)) /\
  (forall d l tx g, exits_with_diagnostic (Writer_new W d l tx g)) /\
  (forall w cfgs, exits_with_diagnostic (create_fields W w cfgs)) /\
  (forall w f, exits_with_diagnostic (create_feature W w f)).
Proof.
  repeat match goal with |- _ /\ _ => split end.
  - intros d l tx g p Hdrv.
    rewrite Writer_new_eq, get_data_source_eq, Hdrv. reflexivity.
  - intros d l tx g p drv Hdrv Hcwd.
    rewrite (ctor_until_getcwd W d l tx g p drv Hdrv), Hcwd. reflexivity.
  - intros d l tx g p drv cwd Hdrv Hcwd Hflag Hmk.
    rewrite (ctor_until_getcwd W d l tx g p drv Hdrv), Hcwd.
    rewrite maybe_create_dir_eq.
    change (is_output_dir_written (after_getcwd p)) with (is_output_dir_written p).
    rewrite Hflag, create_dir_eq.
    change (log (mark_dir_written (after_getcwd p))) with (log (after_getcwd p)).
    apply Z.eqb_neq in Hmk. rewrite Hmk. reflexivity.
  - intros d l tx g p drv cwd Hdrv Hcwd Hdir Hds.
    rewrite (ctor_until_getcwd W d l tx g p drv Hdrv), Hcwd.
    rewrite (ctor_dir_step W d p cwd Hdir), Hds. reflexivity.
  - intros d l tx g p drv cwd ds Hdrv Hcwd Hdir Hds Hlayer.
    rewrite (ctor_until_getcwd W d l tx g p drv Hdrv), Hcwd.
    rewrite (ctor_dir_step W d p cwd Hdir), Hds.
    fold (at_create_layer p drv cwd d l).
    rewrite create_layer_eq, Hlayer. reflexivity.
  - intros w pre c post p p1 Hpre Hfield.
    rewrite create_fields_eq, (create_fields_loop_app W w pre _ p p1 Hpre).
    rewrite create_fields_loop_cons.
    apply Z.eqb_neq in Hfield. rewrite Hfield. reflexivity.
  - intros w f p Hfeat.
    rewrite create_feature_eq. cbv zeta.
    apply Z.eqb_neq in Hfeat. rewrite Hfeat. reflexivity.
  - apply ewd_Writer_new.
  - apply ewd_create_fields.
  - apply ewd_create_feature.
Qed.

(** The seven fatal conditions, each in an environment where exactly that
    call fails. *)
Lemma fatal_conditions_exit_witness :
  let new W := Writer_new W "out" "buildings" true wkbPolygon initial_proc in
  let w := demo_writer true in
  new (stage_world 0) =
    Exited 1 (push [EGetDriverByName "SQLite"; EStderr msg_driver] initial_proc) /\
  new (stage_world 1) =
    Exited 1 (push [EGetcwd; EStderr (msg_cwd 13)] (at_getcwd initial_proc)) /\
  new (stage_world 2) =
    Exited 1 (push [EMkdir "/home/osm/out" DIR_MODE;
                    EStderr (msg_mkdir "/home/osm/out" 13)]
                (mark_dir_written (after_getcwd initial_proc))) /\
  new (stage_world 3) =
    Exited 1 (push [ECreateDataSource 1 "/home/osm/out/buildings.sqlite" DS_OPTIONS;
                    EStderr (msg_data_source "buildings")]
                (at_create_data_source initial_proc "/home/osm" "out")) /\
  new (stage_world 4) =
    Exited 1 (push [ECreateLayer 2 "buildings" "WGS84" wkbPolygon LAYER_OPTIONS;
                    EStderr (msg_layer "buildings")]
                (at_create_layer initial_proc 1 "/home/osm" "out" "buildings")) /\
  create_fields (stage_world 5) w ([] ++ demo_schema) initial_proc =
    Exited 1 (push [field_event w {| name := "name"; type := OFTString; width := 64 |};
                    EStderr (msg_field w {| name := "name"; type := OFTString;
                                            width := 64 |})]
                initial_proc) /\
  create_feature (stage_world 6) w demo_feature initial_proc =
    Exited 1 (push [ECreateFeature 3 demo_feature; EStderr (msg_feature 6)]
                initial_proc).
Proof.
  intros new w.
  repeat match goal with |- _ /\ _ => split end.
  - apply (proj1 (fatal_conditions_exit (stage_world 0))). reflexivity.
  - destruct (fatal_conditions_exit (stage_world 1)) as (_ & H & _).
    apply (H "out" "buildings" true wkbPolygon initial_proc 1); reflexivity.
  - destruct (fatal_conditions_exit (stage_world 2)) as (_ & _ & H & _).
    apply (H "out" "buildings" true wkbPolygon initial_proc 1 "/home/osm");
      try reflexivity.
    discriminate.
  - destruct (fatal_conditions_exit (stage_world 3)) as (_ & _ & _ & H & _).
    apply (H "out" "buildings" true wkbPolygon initial_proc 1 "/home/osm");
      try reflexivity.
    intros _. reflexivity.
  - destruct (fatal_conditions_exit (stage_world 4)) as (_ & _ & _ & _ & H & _).
    apply (H "out" "buildings" true wkbPolygon initial_proc 1 "/home/osm" 2);
      try reflexivity.
    intros _. reflexivity.
  - destruct (fatal_conditions_exit (stage_world 5))
      as (_ & _ & _ & _ & _ & H & _).
    apply (H w [] _ [] initial_proc initial_proc); [reflexivity|discriminate].
  - destruct (fatal_conditions_exit (stage_world 6))
      as (_ & _ & _ & _ & _ & _ & H & _).
    apply (H w demo_feature initial_proc). discriminate.
Defined.

(** What the user sees when the store rejects a feature: one line, then
    the process is gone with status 1. *)
Example feature_failure_diagnostic :
  create_feature (stage_world 6) (demo_writer true) demo_feature initial_proc
  = Exited 1
      {| is_output_dir_written := false;
         log := [EStderr ("Failed to create feature. e = 6" ++ endl);
                 ECreateFeature 3 demo_feature] |}.
Proof. vm_compute. reflexivity. Qed.

(** ** C7: installing the field schema *)

Section Schema.

Variable W : World.
Variable w : Writer.

Lemma create_fields_loop_returned (cfgs : list field_config) :
  forall p u p',
    create_fields_loop W w cfgs p = Returned u p' ->
    p' = push (map (field_event w) cfgs) p.
Proof.
  induction cfgs as [|c rest IH]; intros p u p' H.
  - cbn in H. unfold ret in H. injection H as _ <-. symmetry. apply push_nil.
  - rewrite create_fields_loop_cons in H.
    destruct (w_CreateField W (log p) (m_layer w) (field_defn_of c) =? OGRERR_NONE)%Z;
      [|discriminate].
    apply IH in H. rewrite H, push_push. reflexivity.
Qed.

Lemma create_fields_loop_exited (cfgs : list field_config) :
  forall p code p',
    create_fields_loop W w cfgs p = Exited code p' ->
    code = 1 /\
    exists pre c post,
      cfgs = (pre ++ c :: post)%list /\
      p' = push (map (field_event w) pre
                 ++ [field_event w c; EStderr (msg_field w c)]) p.
Proof.
  induction cfgs as [|c rest IH]; intros p code p' H.
  - discriminate H.
  - rewrite create_fields_loop_cons in H.
    destruct (w_CreateField W (log p) (m_layer w) (field_defn_of c) =? OGRERR_NONE)%Z.
    + apply IH in H. destruct H as (-> & pre & c0 & post & -> & ->).
      split; [reflexivity|].
      exists (c :: pre), c0, post. split; [reflexivity|].
      rewrite push_push. reflexivity.
    + injection H as <- <-. split; [reflexivity|].
      exists [], c, rest. split; reflexivity.
Qed.


End Schema.



(** ** C8: where the store file goes *)

Lemma string_app_assoc (a b c : string) : ((a ++ b) ++ c = a ++ b ++ c)%string.
Proof.
  induction a as [|x a IH]; cbn; [reflexivity|]. rewrite IH. reflexivity.
Qed.

(** C8.  A constructor that returns has called [CreateDataSource] exactly
    once, on the path made of the working directory reported by [getcwd],
    a slash, the output directory name, a slash, the layer name and the
    extension [.sqlite]; the directory it creates, when it creates one, is
    the working directory, a slash and the output directory name.  The
    layer of that name is created in that data source. *)
Theorem store_file_under_working_directory
    (W : World) (d l : string) (tx : bool) (g : OGRwkbGeometryType)
    (p p' : Proc) (w : Writer) :
  Writer_new W d l tx g p = Returned w p' ->
  exists drv cwd,
    w_getcwd W (log (at_getcwd p)) = Some cwd /\
    filter is_create_data_source (events_since p p') =
      [ECreateDataSource drv (cwd ++ "/" ++ d ++ "/" ++ l ++ ".sqlite")
         ["SPATIALITE=TRUE"]] /\
    filter is_mkdir (events_since p p') =
      (if is_output_dir_written p then []
       else [EMkdir (cwd ++ "/" ++ d) 493]) /\
    events_since p p' =
      ctor_events (is_output_dir_written p) drv cwd d l (m_data_source w) g /\
    last (events_since p p') EGetcwd =
      ECreateLayer (m_data_source w) l "WGS84" g
        ["SPATIAL_INDEX=no"; "COMPRESS_GEOM=yes"].
Proof.
  intros H.
  destruct (w_GetDriverByName W (log p) "SQLite") as [drv|] eqn:Hdrv.
  2:{ rewrite Writer_new_eq, get_data_source_eq, Hdrv in H. discriminate. }
  rewrite (ctor_until_getcwd W d l tx g p drv Hdrv) in H.
  destruct (w_getcwd W (log (at_getcwd p))) as [cwd|]; [|discriminate].
  exists drv, cwd. split; [reflexivity|].
  assert (Hpath : store_path cwd d l = cwd ++ "/" ++ d ++ "/" ++ l ++ ".sqlite").
  { unfold store_path, full_dir_of. rewrite !string_app_assoc. reflexivity. }
  rewrite <- Hpath.
  rewrite maybe_create_dir_eq in H.
  change (is_output_dir_written (after_getcwd p))
    with (is_output_dir_written p) in H.
  destruct (is_output_dir_written p).
  - destruct (w_CreateDataSource W _ drv _ DS_OPTIONS) as [ds|]; [|discriminate].
    rewrite create_layer_eq in H.
    destruct (w_CreateLayer W _ ds l g LAYER_OPTIONS) as [layer|]; [|discriminate].
    injection H as <- <-. unfold after_getcwd, at_getcwd.
    rewrite !push_push, events_since_push. repeat split.
  - rewrite create_dir_eq in H.
    destruct (w_mkdir W _ _ DIR_MODE =? 0)%Z; [|discriminate].
    destruct (w_CreateDataSource W _ drv _ DS_OPTIONS) as [ds|]; [|discriminate].
    rewrite create_layer_eq in H.
    destruct (w_CreateLayer W _ ds l g LAYER_OPTIONS) as [layer|]; [|discriminate].
    injection H as <- <-. unfold after_getcwd, at_getcwd.
    rewrite !push_push.
    match goal with
    | |- context [events_since p ?q] =>
        rewrite (events_since_ext p q (ctor_events false drv cwd d l ds g) eq_refl)
    end.
    repeat split.
Qed.

(** The path theorem in the all-succeeding environment, whose working
    directory is [/home/osm]. *)
Lemma store_file_under_working_directory_witness :
  let p' := proc_of (Writer_new ok_world "out" "buildings" true wkbPolygon
                       initial_proc) in
  exists drv cwd,
    w_getcwd ok_world (log (at_getcwd initial_proc)) = Some cwd /\
    filter is_create_data_source (events_since initial_proc p') =
      [ECreateDataSource drv (cwd ++ "/" ++ "out" ++ "/" ++ "buildings" ++ ".sqlite")
         ["SPATIALITE=TRUE"]] /\
    filter is_mkdir (events_since initial_proc p') =
      (if is_output_dir_written initial_proc then []
       else [EMkdir (cwd ++ "/" ++ "out") 493]) /\
    events_since initial_proc p' =
      ctor_events (is_output_dir_written initial_proc) drv cwd "out" "buildings"
        (m_data_source (demo_writer true)) wkbPolygon /\
    last (events_since initial_proc p') EGetcwd =
      ECreateLayer (m_data_source (demo_writer true)) "buildings" "WGS84"
        wkbPolygon ["SPATIAL_INDEX=no"; "COMPRESS_GEOM=yes"].
Proof.
  intros p'.
  apply (store_file_under_working_directory ok_world "out" "buildings" true
           wkbPolygon initial_proc p' (demo_writer true)).
  vm_compute. reflexivity.
Defined.

(** The store file of layer [buildings] under output directory [out]. *)
Example store_file_of_buildings :
  filter is_create_data_source
    (trace (proc_of (Writer_new ok_world "out" "buildings" true wkbPolygon
                       initial_proc)))
  = [ECreateDataSource 1 "/home/osm/out/buildings.sqlite" ["SPATIALITE=TRUE"]].
Proof. vm_compute. reflexivity. Qed.

(** * Further properties of the writer *)

(** ** Features are created once each, in order *)

Lemma created_features_app (a b : list Event) :
  created_features (a ++ b) = (created_features a ++ created_features b)%list.
Proof. apply flat_map_app. Qed.

Lemma destroyed_features_app (a b : list Event) :
  destroyed_features (a ++ b)
  = (destroyed_features a ++ destroyed_features b)%list.
Proof. apply flat_map_app. Qed.

Lemma set_num_features_same (w : Writer) :
  set_num_features w (num_features w) = w.
Proof. destruct w; reflexivity. Qed.

Lemma create_features_returned_events (W : World) (fs : list OGRFeature) :
  forall (w w' : Writer) (p p' : Proc),
    create_features W w fs p = Returned w' p' ->
    w' = set_num_features w (num_features w') /\
    exists tr,
      log p' = (rev tr ++ log p)%list /\
      created_features tr = map (pair (m_layer w)) fs /\
      destroyed_features tr = fs /\
      count is_stderr tr = 0.
Proof.
  induction fs as [|f rest IH]; intros w w' p p' Hrun.
  - cbn in Hrun. unfold ret in Hrun. injection Hrun as <- <-.
    split; [symmetry; apply set_num_features_same|].
    exists []. repeat split.
  - cbn [create_features] in Hrun. unfold bind in Hrun.
    rewrite create_feature_eq in Hrun. cbv zeta in Hrun.
    destruct (w_CreateFeature W (log p) (m_layer w) f =? OGRERR_NONE)%Z;
      [|discriminate].
    destruct (m_use_transaction w && (BATCH_LIMIT <? wrap_uint (num_features w + 1))%Z);
      apply IH in Hrun; destruct Hrun as (Hw & tr & Hlog & Hc & Hd & He);
      (split; [exact Hw|]);
      (eexists; split; [chain_log Hlog|]);
      rewrite created_features_app, destroyed_features_app, count_app, Hc, Hd, He;
      repeat split.
Qed.

Lemma create_features_exited_events (W : World) (fs : list OGRFeature) :
  forall (w : Writer) (p p' : Proc) (c : Z),
    create_features W w fs p = Exited c p' ->
    c = 1 /\
    exists tr pre f post,
      fs = (pre ++ f :: post)%list /\
      log p' = (rev tr ++ log p)%list /\
      created_features tr = map (pair (m_layer w)) (pre ++ [f]) /\
      destroyed_features tr = pre /\
      count is_stderr tr = 1.
Proof.
  induction fs as [|f rest IH]; intros w p p' c Hrun.
  - discriminate Hrun.
  - cbn [create_features] in Hrun. unfold bind in Hrun.
    rewrite create_feature_eq in Hrun. cbv zeta in Hrun.
    destruct (w_CreateFeature W (log p) (m_layer w) f =? OGRERR_NONE)%Z.
    + destruct (m_use_transaction w && (BATCH_LIMIT <? wrap_uint (num_features w + 1))%Z);
        apply IH in Hrun;
        destruct Hrun as (-> & tr & pre & f0 & post & -> & Hlog & Hc & Hd & He);
        (split; [reflexivity|]);
        (eexists; exists (f :: pre), f0, post; split; [reflexivity|]);
        (split; [chain_log Hlog|]);
        rewrite created_features_app, destroyed_features_app, count_app, Hc, Hd, He;
        repeat split.
    + injection Hrun as <- <-. split; [reflexivity|].
      eexists. exists [], f, rest. split; [reflexivity|].
      split; [reflexivity|]. repeat split.
Qed.

(** X1.  In a run of [create_feature] calls that returns, the features
    handed to [CreateFeature] are exactly the given ones, once each, in
    order and on the writer's layer, each one is destroyed, no diagnostic
    is written, and the writer differs from the one before only in its
    counter.  When the run ends the process, the features created are the
    given ones up to and including the rejected one, and the rejected one
    is the only one not destroyed. *)
Theorem features_created_once_in_order
    (W : World) (w : Writer) (fs : list OGRFeature) (p : Proc) :
  (forall w' p',
      create_features W w fs p = Returned w' p' ->
      created_features (events_since p p') = map (pair (m_layer w)) fs /\
      destroyed_features (events_since p p') = fs /\
      count is_stderr (events_since p p') = 0 /\
      w' = set_num_features w (num_features w')) /\
  (forall c p',
      create_features W w fs p = Exited c p' ->
      c = 1 /\
      exists pre f post,
        fs = (pre ++ f :: post)%list /\
        created_features (events_since p p')
          = map (pair (m_layer w)) (pre ++ [f]) /\
        destroyed_features (events_since p p') = pre).
Proof.
  split.
  - intros w' p' H.
    destruct (create_features_returned_events W fs w w' p p' H)
      as (Hw & tr & Hlog & Hc & Hd & He).
    rewrite (events_since_ext _ _ _ Hlog). repeat split; assumption.
  - intros c p' H.
    destruct (create_features_exited_events W fs w p p' c H)
      as (-> & tr & pre & f & post & -> & Hlog & Hc & Hd & _).
    split; [reflexivity|]. exists pre, f, post.
    rewrite (events_since_ext _ _ _ Hlog). repeat split; assumption.
Qed.

(** The property on a batch of three features accepted, and on one where
    the store rejects every feature. *)
Lemma features_created_once_in_order_witness :
  let w := demo_writer true in
  let fs := [demo_feature; demo_feature; demo_feature] in
  let o := create_features ok_world w fs initial_proc in
  (created_features (events_since initial_proc (proc_of o))
     = map (pair (m_layer w)) fs /\
   destroyed_features (events_since initial_proc (proc_of o)) = fs /\
   count is_stderr (events_since initial_proc (proc_of o)) = 0 /\
   set_num_features w 3 = set_num_features w (num_features (set_num_features w 3)))
  /\
  (1 = 1 /\
   exists pre f post,
     fs = (pre ++ f :: post)%list /\
     created_features
       (events_since initial_proc
          (proc_of (create_features (stage_world 6) w fs initial_proc)))
       = map (pair (m_layer w)) (pre ++ [f]) /\
     destroyed_features
       (events_since initial_proc
          (proc_of (create_features (stage_world 6) w fs initial_proc)))
       = pre).
Proof.
  intros w fs o. split.
  - apply (proj1 (features_created_once_in_order ok_world w fs initial_proc)
             (set_num_features w 3) (proc_of o)).
    vm_compute. reflexivity.
  - apply (proj2 (features_created_once_in_order (stage_world 6) w fs initial_proc)
             1 (proc_of (create_features (stage_world 6) w fs initial_proc))).
    vm_compute. reflexivity.
Defined.

(** ** Transactions are opened and closed in turn *)

Lemma tx_alternates_app (o : bool) (a b : list Event) :
  tx_alternates o (a ++ b) =
  match tx_alternates o a with
  | Some o' => tx_alternates o' b
  | None => None
  end.
Proof.
  revert o. induction a as [|e a IH]; intros o; [reflexivity|].
  destruct e; cbn [app tx_alternates]; try apply IH;
    destruct o; try reflexivity; apply IH.
Qed.

Lemma tx_alternates_setup (o : bool) (tr : list Event) :
  forallb setup_event tr = true -> tx_alternates o tr = Some o.
Proof.
  induction tr as [|e tr IH]; [reflexivity|].
  cbn [forallb]. intros H. apply andb_prop in H. destruct H as [He Htr].
  destruct e; cbn [tx_alternates]; try exact (IH Htr); discriminate He.
Qed.

Lemma count_setup (f : Event -> bool) (tr : list Event) :
  (forall e, f e = true -> is_tx_op e = true) ->
  forallb setup_event tr = true -> count f tr = 0.
Proof.
  intros Hf. unfold count.
  induction tr as [|e tr IH]; [reflexivity|].
  cbn [forallb filter]. intros H. apply andb_prop in H. destruct H as [He Htr].
  destruct (f e) eqn:Hfe; [|exact (IH Htr)].
  apply Hf in Hfe. unfold setup_event in He. rewrite Hfe in He. discriminate He.
Qed.

Lemma create_features_alternates (W : World) (fs : list OGRFeature) :
  forall (w w' : Writer) (p p' : Proc) (o : bool),
    (m_use_transaction w = true -> o = true) ->
    create_features W w fs p = Returned w' p' ->
    exists tr,
      log p' = (rev tr ++ log p)%list /\
      tx_alternates o tr = Some o /\
      count is_start tr = count is_commit tr.
Proof.
  induction fs as [|f rest IH]; intros w w' p p' o Ho Hrun.
  - cbn in Hrun. unfold ret in Hrun. injection Hrun as <- <-.
    exists []. repeat split.
  - cbn [create_features] in Hrun. unfold bind in Hrun.
    rewrite create_feature_eq in Hrun. cbv zeta in Hrun.
    destruct (w_CreateFeature W (log p) (m_layer w) f =? OGRERR_NONE)%Z;
      [|discriminate].
    destruct (m_use_transaction w) eqn:Htx; cbn [andb] in Hrun.
    + rewrite (Ho eq_refl) in *.
      destruct (BATCH_LIMIT <? wrap_uint (num_features w + 1))%Z;
        apply (IH _ _ _ _ true) in Hrun; try (intros _; reflexivity);
        destruct Hrun as (tr & Hlog & Ha & Hc);
        (eexists; split; [chain_log Hlog|]);
        rewrite tx_alternates_app, !count_app, Hc; cbn [tx_alternates];
        (split; [exact Ha|reflexivity]).
    + apply (IH _ _ _ _ o) in Hrun;
        [|cbn [set_num_features m_use_transaction]; rewrite Htx;
          intros H; discriminate H].
      destruct Hrun as (tr & Hlog & Ha & Hc).
      eexists; split; [chain_log Hlog|].
      rewrite tx_alternates_app, !count_app, Hc. cbn [tx_alternates].
      split; [exact Ha|reflexivity].
Qed.

Lemma log_delta_unique (p p' : Proc) (t1 t2 : list Event) :
  log p' = (rev t1 ++ log p)%list ->
  log p' = (rev t2 ++ log p)%list ->
  t1 = t2.
Proof.
  intros H1 H2. rewrite H1 in H2. apply app_inv_tail in H2.
  apply (f_equal (@rev Event)) in H2.
  rewrite !rev_involutive in H2. exact H2.
Qed.

Lemma count_tx_op (tr : list Event) :
  count is_tx_op tr = count is_start tr + count is_commit tr.
Proof.
  unfold count. induction tr as [|e tr IH]; [reflexivity|].
  destruct e; cbn [filter is_tx_op is_start is_commit orb length] in *; lia.
Qed.

Lemma create_features_plain_quiet (W : World) (fs : list OGRFeature) :
  forall (w w' : Writer) (p p' : Proc),
    m_use_transaction w = false ->
    create_features W w fs p = Returned w' p' ->
    exists tr,
      log p' = (rev tr ++ log p)%list /\
      count is_tx_op tr = 0.
Proof.
  induction fs as [|f rest IH]; intros w w' p p' Htx Hrun.
  - cbn in Hrun. unfold ret in Hrun. injection Hrun as <- <-.
    exists []. split; reflexivity.
  - cbn [create_features] in Hrun. unfold bind in Hrun.
    rewrite create_feature_eq in Hrun. cbv zeta in Hrun.
    rewrite Htx in Hrun. cbn [andb] in Hrun.
    destruct (w_CreateFeature W (log p) (m_layer w) f =? OGRERR_NONE)%Z;
      [|discriminate].
    apply IH in Hrun; [|exact Htx].
    destruct Hrun as (tr & Hlog & Hq).
    eexists. split; [chain_log Hlog|].
    rewrite count_app, Hq. reflexivity.
Qed.

(** X2.  Over the whole life of a writer that is constructed, given its
    schema, fed any number of features and destroyed, all calls returning,
    the transaction operations come in turn: every [StartTransaction]
    finds no transaction open, every [CommitTransaction] finds one open,
    none is open at the end, and there are as many starts as commits.
    With transactions enabled the life holds [2 * (N / 10001 + 1)]
    transaction operations for [N] features; with transactions disabled
    it holds none at all. *)
Theorem lifecycle_transactions_in_turn
    (W : World) (d l : string) (tx : bool) (g : OGRwkbGeometryType)
    (cfgs : list field_config) (fs : list OGRFeature) (p p' : Proc) :
  lifecycle W d l tx g cfgs fs p = Returned tt p' ->
  tx_alternates false (events_since p p') = Some false /\
  count is_start (events_since p p') = count is_commit (events_since p p') /\
  count is_tx_op (events_since p p')
  = (if tx then 2 * (Z.of_nat (length fs) / 10001 + 1) else 0).
Proof.
  unfold lifecycle. unfold bind at 1.
  destruct (Writer_new W d l tx g p) as [w p1|c p1] eqn:H0; [|discriminate].
  unfold bind at 1.
  destruct (create_fields W w cfgs p1) as [[] p2|c p2] eqn:H1; [|discriminate].
  unfold bind at 1.
  destruct (create_features W w fs p2) as [w' p3|c p3] eqn:H2; [|discriminate].
  rewrite Writer_delete_eq. intros H. injection H as <-.
  destruct (lifecycle_setup _ _ _ _ _ _ _ _ _ _ H0 H1) as (trs & Hlog2 & Hall).
  destruct (Writer_new_fresh _ _ _ _ _ _ _ _ H0) as (Hn & Htx & _).
  destruct (create_features_returned_events W fs w w' p2 p3 H2) as (Hw' & _).
  assert (Htx' : m_use_transaction w' = tx) by (rewrite Hw'; exact Htx).
  destruct (create_features_alternates W fs w w' p2 p3 tx) as (tr & Hlog3 & Ha & Hc);
    [intros Ht; rewrite <- Htx; exact Ht|exact H2|].
  assert (Hcm : count is_commit tr
                = if tx then Z.of_nat (length fs) / 10001 else 0).
  { destruct tx.
    - assert (Hn' : 0 <= num_features w <= BATCH_LIMIT)
        by (rewrite Hn; unfold BATCH_LIMIT; lia).
      destruct (create_features_run W fs w w' p2 p3 Htx Hn' H2)
        as (tr1 & Hlog1 & Hc1 & _).
      rewrite (log_delta_unique _ _ _ _ Hlog3 Hlog1), Hc1, Hn. reflexivity.
    - destruct (create_features_plain_quiet W fs w w' p2 p3 Htx H2)
        as (tr1 & Hlog1 & Hq).
      rewrite (log_delta_unique _ _ _ _ Hlog3 Hlog1).
      rewrite count_tx_op in Hq.
      pose proof (count_nonneg is_start tr1).
      pose proof (count_nonneg is_commit tr1). lia. }
  rewrite Htx'.
  match goal with
  | |- context [events_since p ?q] =>
      assert (Hlog4 : log q
                      = (rev ((trs ++ (if tx then [EStartTransaction (m_layer w)]
                                       else []))
                              ++ tr
                              ++ (if tx then [ECommitTransaction (m_layer w')]
                                  else [])
                              ++ [EDestroyDataSource (m_data_source w')])
                         ++ log p)%list)
  end.
  { eapply extends_trans; [exact Hlog2|].
    eapply extends_trans; [exact Hlog3|]. reflexivity. }
  rewrite (events_since_ext _ _ _ Hlog4).
  rewrite count_tx_op.
  rewrite !tx_alternates_app, (tx_alternates_setup false trs Hall).
  rewrite !count_app, Hc, Hcm.
  rewrite (count_setup is_start trs) by
    (try exact Hall; intros e He; unfold is_tx_op; rewrite He; apply orb_true_r).
  rewrite (count_setup is_commit trs) by
    (try exact Hall; intros e He; unfold is_tx_op; rewrite He; reflexivity).
  destruct tx; cbn [tx_alternates]; rewrite tx_alternates_app, Ha;
    (split; [reflexivity|]);
    unfold count; cbn [filter is_start is_commit length]; lia.
Qed.

(** The property on a writer with transactions and three features, and
    on one without transactions. *)
Lemma lifecycle_transactions_in_turn_witness :
  let fs := [demo_feature; demo_feature; demo_feature] in
  let p' := proc_of (lifecycle ok_world "out" "buildings" true wkbPolygon
                       demo_schema fs initial_proc) in
  let q' := proc_of (lifecycle ok_world "out" "roads" false wkbLineString
                       demo_schema fs initial_proc) in
  (tx_alternates false (events_since initial_proc p') = Some false /\
   count is_start (events_since initial_proc p')
   = count is_commit (events_since initial_proc p') /\
   count is_tx_op (events_since initial_proc p')
   = 2 * (Z.of_nat (length fs) / 10001 + 1)) /\
  (tx_alternates false (events_since initial_proc q') = Some false /\
   count is_start (events_since initial_proc q')
   = count is_commit (events_since initial_proc q') /\
   count is_tx_op (events_since initial_proc q') = 0).
Proof.
  intros fs p' q'. split.
  - apply (lifecycle_transactions_in_turn ok_world "out" "buildings" true
             wkbPolygon demo_schema fs initial_proc p').
    vm_compute. reflexivity.
  - apply (lifecycle_transactions_in_turn ok_world "out" "roads" false
             wkbLineString demo_schema fs initial_proc q').
    vm_compute. reflexivity.
Defined.

(** X3.  [create_fields] is what opens the first transaction.  A writer
    with transactions enabled that is destroyed without [create_fields]
    having been called, whatever number of features (fewer than 10,001)
    went through it, commits once in its destructor although no
    transaction was ever started. *)
Theorem commit_without_start_when_schema_skipped
    (W : World) (d l : string) (g : OGRwkbGeometryType)
    (fs : list OGRFeature) (p p1 p2 : Proc) (w w' : Writer) :
  Writer_new W d l true g p = Returned w p1 ->
  create_features W w fs p1 = Returned w' p2 ->
  Z.of_nat (length fs) < 10001 ->
  exists p3,
    Writer_delete w' p2 = Returned tt p3 /\
    count is_start (events_since p p3) = 0 /\
    count is_commit (events_since p p3) = 1 /\
    tx_alternates false (events_since p p3) = None.
Proof.
  intros H0 H1 Hlen.
  destruct (Writer_new_fresh _ _ _ _ _ _ _ _ H0) as (Hn & Htx & _).
  destruct (emits_Writer_new W d l true g p) as (tr0 & Hlog0 & Hall0).
  rewrite H0 in Hlog0. cbn [proc_of] in Hlog0.
  assert (Hn' : 0 <= num_features w <= BATCH_LIMIT)
    by (rewrite Hn; unfold BATCH_LIMIT; lia).
  destruct (create_features_run W fs w w' p1 p2 Htx Hn' H1)
    as (tr & Hlog1 & Hc & _ & _ & Htx' & _).
  destruct (create_features_alternates W fs w w' p1 p2 true (fun _ => eq_refl) H1)
    as (tr' & Hlog1' & _ & Hsc).
  assert (tr' = tr).
  { rewrite Hlog1 in Hlog1'. apply app_inv_tail in Hlog1'.
    apply (f_equal (@rev Event)) in Hlog1'.
    rewrite !rev_involutive in Hlog1'. symmetry. exact Hlog1'. }
  subst tr'.
  rewrite Hn, Z.add_0_l, Z.div_small in Hc by lia.
  rewrite Writer_delete_eq, Htx'. eexists. split; [reflexivity|].
  match goal with
  | |- context [events_since p ?q] =>
      assert (Hlog3 : log q
                      = (rev (tr0 ++ tr ++ [ECommitTransaction (m_layer w');
                                            EDestroyDataSource (m_data_source w')])
                         ++ log p)%list)
  end.
  { eapply extends_trans; [exact Hlog0|].
    eapply extends_trans; [exact Hlog1|]. reflexivity. }
  rewrite (events_since_ext _ _ _ Hlog3).
  rewrite !count_app, Hsc, Hc.
  rewrite (count_setup is_start tr0) by
    (try exact Hall0; intros e He; unfold is_tx_op; rewrite He; apply orb_true_r).
  rewrite (count_setup is_commit tr0) by
    (try exact Hall0; intros e He; unfold is_tx_op; rewrite He; reflexivity).
  repeat split.
  rewrite tx_alternates_app, (tx_alternates_setup false tr0 Hall0).
  assert (Hnone : forall t, count is_start t = 0 -> count is_commit t = 0 ->
                            forall t2, tx_alternates false (t ++ ECommitTransaction (m_layer w') :: t2) = None).
  { intros t. induction t as [|e t IH]; intros Hs Hcm t2; [reflexivity|].
    unfold count in *.
    destruct e; cbn [app tx_alternates filter is_start is_commit length] in *;
      try (apply IH; assumption); lia. }
  apply Hnone; [rewrite Hsc; exact Hc|exact Hc].
Qed.

(** The property on a writer constructed, fed two features and destroyed. *)
Lemma commit_without_start_when_schema_skipped_witness :
  let w := demo_writer true in
  let fs := [demo_feature; demo_feature] in
  let p1 := proc_of (Writer_new ok_world "out" "buildings" true wkbPolygon
                       initial_proc) in
  let p2 := proc_of (create_features ok_world w fs p1) in
  exists p3,
    Writer_delete (set_num_features w 2) p2 = Returned tt p3 /\
    count is_start (events_since initial_proc p3) = 0 /\
    count is_commit (events_since initial_proc p3) = 1 /\
    tx_alternates false (events_since initial_proc p3) = None.
Proof.
  intros w fs p1 p2.
  apply (commit_without_start_when_schema_skipped ok_world "out" "buildings"
           wkbPolygon fs initial_proc p1 p2 w (set_num_features w 2));
    vm_compute; reflexivity.
Defined.

(** ** What a returning constructor has done *)

Lemma Writer_new_returned_events
    (W : World) (d l : string) (tx : bool) (g : OGRwkbGeometryType)
    (p p' : Proc) (w : Writer) :
  Writer_new W d l tx g p = Returned w p' ->
  exists drv cwd,
    w_getcwd W (log (at_getcwd p)) = Some cwd /\
    log p' = (rev (ctor_events (is_output_dir_written p) drv cwd d l
                     (m_data_source w) g) ++ log p)%list /\
    is_output_dir_written p' = true.
Proof.
  intros H.
  destruct (w_GetDriverByName W (log p) "SQLite") as [drv|] eqn:Hdrv.
  2:{ rewrite Writer_new_eq, get_data_source_eq, Hdrv in H. discriminate. }
  rewrite (ctor_until_getcwd W d l tx g p drv Hdrv) in H.
  destruct (w_getcwd W (log (at_getcwd p))) as [cwd|]; [|discriminate].
  exists drv, cwd. split; [reflexivity|].
  rewrite maybe_create_dir_eq in H.
  change (is_output_dir_written (after_getcwd p))
    with (is_output_dir_written p) in H.
  destruct (is_output_dir_written p) eqn:Hflag.
  - destruct (w_CreateDataSource W _ drv _ DS_OPTIONS) as [ds|]; [|discriminate].
    rewrite create_layer_eq in H.
    destruct (w_CreateLayer W _ ds l g LAYER_OPTIONS) as [layer|]; [|discriminate].
    injection H as <- <-. split; [reflexivity|exact Hflag].
  - rewrite create_dir_eq in H.
    destruct (w_mkdir W _ _ DIR_MODE =? 0)%Z; [|discriminate].
    destruct (w_CreateDataSource W _ drv _ DS_OPTIONS) as [ds|]; [|discriminate].
    rewrite create_layer_eq in H.
    destruct (w_CreateLayer W _ ds l g LAYER_OPTIONS) as [layer|]; [|discriminate].
    injection H as <- <-. split; reflexivity.
Qed.

(** ** The directory flag only ever rises *)

Section FlagStaysSet.

Context {A B : Type}.

Lemma fss_ret (a : A) : flag_stays_set (ret a).
Proof. intros p H. exact H. Qed.

Lemma fss_exit (c : Z) : flag_stays_set (@exit A c).
Proof. intros p H. exact H. Qed.

Lemma fss_emit (e : Event) : flag_stays_set (emit e).
Proof. intros p H. exact H. Qed.

Lemma fss_call (e : Event) (answer : History -> A) : flag_stays_set (call e answer).
Proof. intros p H. exact H. Qed.

Lemma fss_bind (m : M A) (k : A -> M B) :
  flag_stays_set m -> (forall a, flag_stays_set (k a)) ->
  flag_stays_set (bind m k).
Proof.
  intros Hm Hk p H. specialize (Hm p H). unfold bind.
  destruct (m p) as [a p1|c p1]; cbn [proc_of] in *.
  - apply Hk, Hm.
  - exact Hm.
Qed.

End FlagStaysSet.

Lemma fss_read_errno (W : World) : flag_stays_set (read_errno W).
Proof. intros p H. exact H. Qed.

Lemma fss_get_flag : flag_stays_set get_flag.
Proof. intros p H. exact H. Qed.

Lemma fss_set_flag_true : flag_stays_set (set_flag true).
Proof. intros p H. reflexivity. Qed.

Ltac fss_step :=
  first
    [ apply fss_ret
    | apply fss_exit
    | apply fss_read_errno
    | apply fss_get_flag
    | apply fss_set_flag_true
    | apply fss_emit
    | apply fss_call
    | apply fss_bind; [|intros ?]
    | match goal with
      | |- flag_stays_set (match ?x with _ => _ end) => destruct x
      end ].

Ltac fss_tac := unfold cerr; repeat fss_step.

Lemma fss_Writer_new (W : World) (d l : string) (tx : bool)
    (g : OGRwkbGeometryType) :
  flag_stays_set (Writer_new W d l tx g).
Proof.
  unfold Writer_new, get_data_source, get_current_dir, maybe_create_dir,
    create_dir, create_layer.
  fss_tac.
Qed.

Lemma create_fields_flag (W : World) (w : Writer) (cfgs : list field_config)
    (p : Proc) :
  is_output_dir_written (proc_of (create_fields W w cfgs p))
  = is_output_dir_written p.
Proof.
  rewrite create_fields_eq.
  destruct (create_fields_loop W w cfgs p) as [u q|c q] eqn:Hloop.
  - apply create_fields_loop_returned in Hloop. subst q. reflexivity.
  - apply create_fields_loop_exited in Hloop.
    destruct Hloop as (_ & pre & c0 & post & _ & ->). reflexivity.
Qed.

Lemma create_feature_flag (W : World) (w : Writer) (f : OGRFeature) (p : Proc) :
  is_output_dir_written (proc_of (create_feature W w f p))
  = is_output_dir_written p.
Proof.
  rewrite create_feature_eq. cbv zeta.
  destruct (w_CreateFeature W (log p) (m_layer w) f =? OGRERR_NONE)%Z;
    [|reflexivity].
  destruct (m_use_transaction w && (BATCH_LIMIT <? wrap_uint (num_features w + 1))%Z);
    reflexivity.
Qed.

Lemma fss_run_call (W : World) (h : Heap) (c : Call) :
  flag_stays_set (run_call W h c).
Proof.
  destruct c; cbn [run_call]; try destruct (live h i).
  - apply fss_bind; [apply fss_Writer_new|intros ?; apply fss_ret].
  - apply fss_bind; [|intros ?; apply fss_ret].
    intros p H. rewrite create_fields_flag. exact H.
  - apply fss_ret.
  - apply fss_bind; [|intros ?; apply fss_ret].
    intros p H. rewrite create_feature_flag. exact H.
  - apply fss_ret.
  - apply fss_bind; [|intros ?; apply fss_ret].
    intros p H. exact H.
  - apply fss_ret.
  - apply fss_bind; [|intros ?; apply fss_ret].
    intros p H. rewrite Writer_delete_eq. exact H.
  - apply fss_ret.
Qed.

Lemma fss_run_calls (W : World) (cs : list Call) :
  forall h, flag_stays_set (run_calls W h cs).
Proof.
  induction cs as [|c rest IH]; intros h; cbn [run_calls].
  - apply fss_ret.
  - apply fss_bind; [apply fss_run_call|exact IH].
Qed.

(** X4.  The static flag [is_output_dir_written] is never cleared: once
    it is set, it is set after any sequence of constructions and member
    calls, whatever their outcome.  A constructor that returns leaves it
    set; [create_fields], [create_feature], [catch_geometry_error] and the
    destructor leave it as it is. *)
Theorem directory_flag_never_cleared (W : World) :
  (forall cs h p,
      is_output_dir_written p = true ->
      is_output_dir_written (proc_of (run_calls W h cs p)) = true) /\
  (forall d l tx g p w p',
      Writer_new W d l tx g p = Returned w p' ->
      is_output_dir_written p' = true) /\
  (forall w cfgs p,
      is_output_dir_written (proc_of (create_fields W w cfgs p))
      = is_output_dir_written p) /\
  (forall w f p,
      is_output_dir_written (proc_of (create_feature W w f p))
      = is_output_dir_written p) /\
  (forall w what way_id p,
      is_output_dir_written (proc_of (catch_geometry_error w what way_id p))
      = is_output_dir_written p) /\
  (forall w p,
      is_output_dir_written (proc_of (Writer_delete w p))
      = is_output_dir_written p).
Proof.
  split; [|split; [|split; [|split; [|split]]]].
  - intros cs h p H. exact (fss_run_calls W cs h p H).
  - intros d l tx g p w p' H.
    destruct (Writer_new_returned_events W d l tx g p p' w H)
      as (_ & _ & _ & _ & Hflag).
    exact Hflag.
  - intros w cfgs p. apply create_fields_flag.
  - intros w f p. apply create_feature_flag.
  - intros w what way_id p. reflexivity.
  - intros w p. rewrite Writer_delete_eq. reflexivity.
Qed.

(** The property on a process that constructs a writer, feeds and
    destroys it, and constructs a second one. *)
Lemma directory_flag_never_cleared_witness :
  let p1 := proc_of (Writer_new ok_world "out" "buildings" true wkbPolygon
                       initial_proc) in
  let cs := [CNew "out" "roads" false wkbLineString;
             CCreateFeature 0 demo_feature; CDelete 0] in
  is_output_dir_written p1 = true /\
  is_output_dir_written (proc_of (run_calls ok_world [] cs p1)) = true.
Proof.
  intros p1 cs.
  destruct (directory_flag_never_cleared ok_world) as (Hrun & Hnew & _).
  assert (H1 : is_output_dir_written p1 = true).
  { apply (Hnew "out" "buildings" true wkbPolygon initial_proc
             (demo_writer true) p1).
    vm_compute. reflexivity. }
  split; [exact H1|]. apply Hrun. exact H1.
Defined.

(** ** A second output directory is never created *)



(** ** One diagnostic per fatal exit, none otherwise *)

Section DiagIffExit.

Context {A B : Type}.

Lemma die_ret (a : A) : diag_iff_exit (ret a).
Proof. intros p. exists []. split; reflexivity. Qed.

Lemma die_emit (e : Event) : is_stderr e = false -> diag_iff_exit (emit e).
Proof.
  intros He p. exists [e]. split; [reflexivity|].
  unfold count. cbn. rewrite He. reflexivity.
Qed.

Lemma die_call (e : Event) (answer : History -> A) :
  is_stderr e = false -> diag_iff_exit (call e answer).
Proof.
  intros He p. exists [e]. split; [reflexivity|].
  unfold count. cbn. rewrite He. reflexivity.
Qed.

Lemma die_fatal (msg : string) : diag_iff_exit (cerr msg ;; @exit A 1).
Proof. intros p. exists [EStderr msg]. split; reflexivity. Qed.

Lemma die_bind (m : M A) (k : A -> M B) :
  diag_iff_exit m -> (forall a, diag_iff_exit (k a)) ->
  diag_iff_exit (bind m k).
Proof.
  intros Hm Hk p. destruct (Hm p) as (tr1 & Hlog1 & Hc1).
  unfold bind. destruct (m p) as [a p1|c p1]; cbn [proc_of exit_count] in *.
  - destruct (Hk a p1) as (tr2 & Hlog2 & Hc2).
    exists (tr1 ++ tr2)%list. split.
    + exact (extends_trans _ _ _ _ _ Hlog1 Hlog2).
    + rewrite count_app, Hc1, Hc2. reflexivity.
  - exists tr1. split; assumption.
Qed.

End DiagIffExit.

Lemma die_read_errno (W : World) : diag_iff_exit (read_errno W).
Proof. intros p. exists []. split; reflexivity. Qed.

Lemma die_get_flag : diag_iff_exit get_flag.
Proof. intros p. exists []. split; reflexivity. Qed.

Lemma die_set_flag (b : bool) : diag_iff_exit (set_flag b).
Proof. intros p. exists []. split; reflexivity. Qed.

Ltac die_step :=
  first
    [ apply die_fatal
    | apply die_ret
    | apply die_read_errno
    | apply die_get_flag
    | apply die_set_flag
    | apply die_emit; reflexivity
    | apply die_call; reflexivity
    | apply die_bind; [|intros ?]
    | match goal with
      | |- diag_iff_exit (match ?x with _ => _ end) => destruct x
      end ].

Ltac die_tac := repeat die_step.

Lemma die_count {A} (m : M A) (p : Proc) :
  diag_iff_exit m ->
  count is_stderr (events_since p (proc_of (m p))) = exit_count (m p).
Proof.
  intros H. destruct (H p) as (tr & Hlog & Hc).
  rewrite (events_since_ext _ _ _ Hlog). exact Hc.
Qed.

Section DiagCode.

Variable W : World.

Lemma die_Writer_new (d l : string) (tx : bool) (g : OGRwkbGeometryType) :
  diag_iff_exit (Writer_new W d l tx g).
Proof.
  unfold Writer_new, get_data_source, get_current_dir, maybe_create_dir,
    create_dir, create_layer.
  die_tac.
Qed.

Lemma die_create_fields (w : Writer) (cfgs : list field_config) :
  diag_iff_exit (create_fields W w cfgs).
Proof.
  unfold create_fields. apply die_bind; [|intros ?; die_tac].
  induction cfgs as [|c rest IH]; cbn [create_fields_loop]; die_tac.
  exact IH.
Qed.

Lemma die_create_feature (w : Writer) (f : OGRFeature) :
  diag_iff_exit (create_feature W w f).
Proof. unfold create_feature, maybe_commit_transaction. die_tac. Qed.

Lemma die_Writer_delete (w : Writer) : diag_iff_exit (Writer_delete w).
Proof. unfold Writer_delete. die_tac. Qed.

End DiagCode.

(** X6.  The constructor, [create_fields] and [create_feature] write to
    [std::cerr] exactly when they end the process, and then exactly one
    diagnostic, that is one [EStderr] event, the text of one output
    statement: a call that returns has written nothing, a call that ends
    the process has written one diagnostic.  The destructor writes
    nothing.  The whole life of a writer likewise writes one diagnostic if
    it ends the process at any point and none if it runs to the end. *)
Theorem one_diagnostic_iff_exit (W : World) :
  (forall d l tx g p,
      count is_stderr (events_since p (proc_of (Writer_new W d l tx g p)))
      = exit_count (Writer_new W d l tx g p)) /\
  (forall w cfgs p,
      count is_stderr (events_since p (proc_of (create_fields W w cfgs p)))
      = exit_count (create_fields W w cfgs p)) /\
  (forall w f p,
      count is_stderr (events_since p (proc_of (create_feature W w f p)))
      = exit_count (create_feature W w f p)) /\
  (forall w p,
      count is_stderr (events_since p (proc_of (Writer_delete w p))) = 0) /\
  (forall d l tx g cfgs fs p,
      count is_stderr
        (events_since p (proc_of (lifecycle W d l tx g cfgs fs p)))
      = exit_count (lifecycle W d l tx g cfgs fs p)).
Proof.
  split; [|split; [|split; [|split]]].
  - intros. apply die_count, die_Writer_new.
  - intros. apply die_count, die_create_fields.
  - intros. apply die_count, die_create_feature.
  - intros w p. rewrite (die_count _ p (die_Writer_delete w)).
    rewrite Writer_delete_eq. reflexivity.
  - intros d l tx g cfgs fs p. apply die_count.
    unfold lifecycle.
    apply die_bind; [apply die_Writer_new|intros w].
    apply die_bind; [apply die_create_fields|intros _].
    apply die_bind; [|intros w'; apply die_Writer_delete].
    clear. revert w.
    induction fs as [|f rest IH]; intros w; cbn [create_features].
    + apply die_ret.
    + apply die_bind; [apply die_create_feature|exact IH].
Qed.

(** A life that runs to the end is silent; one whose layer cannot be
    created writes one diagnostic. *)
Example silent_life_and_one_line_on_failure :
  count is_stderr
    (trace (proc_of (lifecycle ok_world "out" "buildings" true wkbPolygon
                       demo_schema [demo_feature; demo_feature] initial_proc)))
  = 0 /\
  filter is_stderr
    (trace (proc_of (lifecycle (stage_world 4) "out" "buildings" true
                       wkbPolygon demo_schema [demo_feature] initial_proc)))
  = [EStderr ("Creation of layer 'buildings' failed." ++ endl)].
Proof. vm_compute. split; reflexivity. Qed.

(** ** Runs of ways: diagnostics and features *)




(** ** Batches are full, and the counter is the size of the open one *)

Lemma commits_hold_app (n : Z) (st : option Z) (a b : list Event) :
  commits_hold n st (a ++ b) =
  commits_hold n st a && commits_hold n (tx_state st a) b.
Proof.
  revert st. induction a as [|e a IH]; intros st; [reflexivity|].
  cbn [app commits_hold]. rewrite IH, andb_assoc. reflexivity.
Qed.

Lemma create_features_batches (W : World) (fs : list OGRFeature) :
  forall (w w' : Writer) (p p' : Proc),
    m_use_transaction w = true ->
    0 <= num_features w <= BATCH_LIMIT ->
    create_features W w fs p = Returned w' p' ->
    exists tr,
      log p' = (rev tr ++ log p)%list /\
      commits_hold (BATCH_LIMIT + 1) (Some (num_features w)) tr = true /\
      tx_state (Some (num_features w)) tr = Some (num_features w').
Proof.
  induction fs as [|f rest IH]; intros w w' p p' Htx Hn Hrun.
  - cbn in Hrun. unfold ret in Hrun. injection Hrun as <- <-.
    exists []. repeat split.
  - cbn [create_features] in Hrun. unfold bind in Hrun.
    rewrite create_feature_eq in Hrun. cbv zeta in Hrun.
    rewrite Htx, (wrap_uint_small _ Hn) in Hrun. cbn [andb] in Hrun.
    destruct (w_CreateFeature W (log p) (m_layer w) f =? OGRERR_NONE)%Z;
      [|discriminate].
    destruct (BATCH_LIMIT <? num_features w + 1)%Z eqn:Hlim.
    + apply Z.ltb_lt in Hlim.
      apply IH in Hrun; [|exact Htx|cbn; unfold BATCH_LIMIT; lia].
      destruct Hrun as (tr & Hlog & Hh & Hst).
      cbn [set_num_features num_features] in Hh, Hst.
      eexists. split; [chain_log Hlog|].
      rewrite commits_hold_app, tx_state_app.
      cbn [commits_hold tx_state fold_left tx_step option_map andb].
      change (fold_left tx_step tr (Some 0)) with (tx_state (Some 0) tr).
      rewrite Hh, Hst. split; [|reflexivity].
      repeat (apply andb_true_intro; split); try reflexivity.
      apply Z.eqb_eq. unfold BATCH_LIMIT in *. lia.
    + apply IH in Hrun; [|exact Htx|apply Z.ltb_ge in Hlim; cbn; lia].
      destruct Hrun as (tr & Hlog & Hh & Hst).
      cbn [set_num_features num_features] in Hh, Hst.
      eexists. split; [chain_log Hlog|].
      rewrite commits_hold_app, tx_state_app.
      cbn [commits_hold tx_state fold_left tx_step option_map andb].
      change (Z.succ (num_features w)) with (num_features w + 1).
      change (fold_left tx_step tr (Some (num_features w + 1)))
        with (tx_state (Some (num_features w + 1)) tr).
      rewrite Hh, Hst. split; reflexivity.
Qed.

(** X8.  For a writer with transactions enabled whose schema has been
    installed, over any run of returning [create_feature] calls: every
    commit of the run closes a transaction holding exactly 10,001 created
    features, so no batch is committed short, and after the run the open
    transaction holds exactly as many created features as the counter
    [num_features] says. *)
Theorem batches_are_full_and_counter_is_window
    (W : World) (d l : string) (g : OGRwkbGeometryType)
    (cfgs : list field_config) (fs : list OGRFeature)
    (p0 p1 p2 p3 : Proc) (w w' : Writer) :
  Writer_new W d l true g p0 = Returned w p1 ->
  create_fields W w cfgs p1 = Returned tt p2 ->
  create_features W w fs p2 = Returned w' p3 ->
  tx_state None (events_since p0 p2) = Some 0 /\
  commits_hold 10001 (Some 0) (events_since p2 p3) = true /\
  tx_state None (events_since p0 p3) = Some (num_features w').
Proof.
  intros H0 H1 H2.
  destruct (lifecycle_setup _ _ _ _ _ _ _ _ _ _ H0 H1) as (trs & Hlog2 & Hall).
  destruct (Writer_new_fresh _ _ _ _ _ _ _ _ H0) as (Hn & Htx & _).
  assert (Hn' : 0 <= num_features w <= BATCH_LIMIT)
    by (rewrite Hn; unfold BATCH_LIMIT; lia).
  destruct (create_features_batches W fs w w' p2 p3 Htx Hn' H2)
    as (tr & Hlog3 & Hh & Hst).
  rewrite Hn in Hh, Hst.
  destruct (setup_windows 10001 trs Hall) as (_ & Hnone).
  rewrite (events_since_ext _ _ _ Hlog2), (events_since_ext _ _ _ Hlog3).
  rewrite (events_since_ext _ _ _ (extends_trans _ _ _ _ _ Hlog2 Hlog3)).
  rewrite !tx_state_app, Hnone.
  cbn [tx_state fold_left tx_step] in *.
  repeat split; assumption.
Qed.

(** The property on three features: no commit yet, and a window of 3. *)
Lemma batches_are_full_and_counter_is_window_witness :
  let fs := [demo_feature; demo_feature; demo_feature] in
  let w := demo_writer true in
  let p1 := proc_of (Writer_new ok_world "out" "buildings" true wkbPolygon
                       initial_proc) in
  let p2 := proc_of (create_fields ok_world w demo_schema p1) in
  let p3 := proc_of (create_features ok_world w fs p2) in
  tx_state None (events_since initial_proc p2) = Some 0 /\
  commits_hold 10001 (Some 0) (events_since p2 p3) = true /\
  tx_state None (events_since initial_proc p3)
  = Some (num_features (set_num_features w 3)).
Proof.
  intros fs w p1 p2 p3.
  apply (batches_are_full_and_counter_is_window ok_world "out" "buildings"
           wkbPolygon demo_schema fs initial_proc p1 p2 p3 w
           (set_num_features w 3));
    vm_compute; reflexivity.
Defined.

(** A full batch at work: after 10,001 features the only commit of the
    run closed a window of 10,001 and the new window is empty. *)
Example first_batch_is_full :
  let w := demo_writer true in
  let p2 := proc_of (create_fields ok_world w demo_schema initial_proc) in
  let p3 := proc_of (create_features ok_world w
                       (repeat demo_feature (Z.to_nat 10001)) p2) in
  count is_commit (events_since p2 p3) = 1 /\
  commits_hold 10001 (Some 0) (events_since p2 p3) = true /\
  tx_state (Some 0) (events_since p2 p3) = Some 0.
Proof. vm_compute. repeat split. Qed.

(** ** The counter of a writer without transactions *)

(** X9.  With transactions disabled the counter counts the returning
    [create_feature] calls in [unsigned int] arithmetic: from a counter
    [n] a run of [N] returning calls ends at [(n + N) mod 2^32], so the
    counter stays below [2^32] and is back at zero when [n + N] reaches
    [2^32]. *)
Theorem counter_counts_modulo_2_32
    (W : World) (w w' : Writer) (fs : list OGRFeature) (p p' : Proc) :
  m_use_transaction w = false ->
  0 <= num_features w < UINT_MODULUS ->
  create_features W w fs p = Returned w' p' ->
  num_features w' = (num_features w + Z.of_nat (length fs)) mod 2 ^ 32 /\
  0 <= num_features w' < 2 ^ 32 /\
  (num_features w + Z.of_nat (length fs) = 2 ^ 32 -> num_features w' = 0).
Proof.
  intros Htx Hn Hrun.
  pose proof (create_features_plain W fs w w' p p' Htx Hn Hrun) as H.
  unfold wrap_uint, UINT_MODULUS in H. rewrite H.
  split; [reflexivity|]. split; [apply Z.mod_pos_bound; lia|].
  intros ->. apply Z_mod_same_full.
Qed.

(** The property at the wrap: the counter at [2^32 - 2] and three more
    features. *)
Lemma counter_counts_modulo_2_32_witness :
  let w := set_num_features (demo_writer false) (2 ^ 32 - 2) in
  let fs := [demo_feature; demo_feature; demo_feature] in
  num_features (set_num_features w 1)
    = (num_features w + Z.of_nat (length fs)) mod 2 ^ 32 /\
  0 <= num_features (set_num_features w 1) < 2 ^ 32 /\
  (num_features w + Z.of_nat (length fs) = 2 ^ 32 ->
   num_features (set_num_features w 1) = 0).
Proof.
  intros w fs.
  apply (counter_counts_modulo_2_32 ok_world w (set_num_features w 1) fs
           initial_proc
           (proc_of (create_features ok_world w fs initial_proc))).
  - reflexivity.
  - vm_compute. split; [discriminate|reflexivity].
  - vm_compute. reflexivity.
Defined.

(** ** The store options in force *)

(** X11.  A constructor that returns has set the SQLite options before
    anything else but the driver lookup, hence before the working
    directory is read, the directory made and the data source created;
    the values in force afterwards are [FALSE] for
    [OGR_SQLITE_SYNCHRONOUS], the later of the two values set, and [1024]
    for [OGR_SQLITE_CACHE]. *)
Theorem store_options_in_force
    (W : World) (d l : string) (tx : bool) (g : OGRwkbGeometryType)
    (p p' : Proc) (w : Writer) :
  Writer_new W d l tx g p = Returned w p' ->
  firstn 4 (events_since p p') = ctor_config /\
  config_option "OGR_SQLITE_SYNCHRONOUS" (events_since p p') = Some "FALSE" /\
  config_option "OGR_SQLITE_CACHE" (events_since p p') = Some "1024" /\
  config_option "OGR_SQLITE_SYNCHRONOUS" (skipn 4 (events_since p p')) = None /\
  config_option "OGR_SQLITE_CACHE" (skipn 4 (events_since p p')) = None.
Proof.
  intros H.
  destruct (Writer_new_returned_events W d l tx g p p' w H)
    as (drv & cwd & _ & Hlog & _).
  rewrite (events_since_ext _ _ _ Hlog).
  destruct (is_output_dir_written p); repeat split.
Qed.

(** The property in the all-succeeding environment. *)
Lemma store_options_in_force_witness :
  let p' := proc_of (Writer_new ok_world "out" "buildings" true wkbPolygon
                       initial_proc) in
  firstn 4 (events_since initial_proc p') = ctor_config /\
  config_option "OGR_SQLITE_SYNCHRONOUS" (events_since initial_proc p')
    = Some "FALSE" /\
  config_option "OGR_SQLITE_CACHE" (events_since initial_proc p') = Some "1024" /\
  config_option "OGR_SQLITE_SYNCHRONOUS" (skipn 4 (events_since initial_proc p'))
    = None /\
  config_option "OGR_SQLITE_CACHE" (skipn 4 (events_since initial_proc p')) = None.
Proof.
  intros p'.
  apply (store_options_in_force ok_world "out" "buildings" true wkbPolygon
           initial_proc p' (demo_writer true)).
  vm_compute. reflexivity.
Defined.
